(** * MUCK collaboration core: a shallow embedding of the code

    The development follows the source files:
    - [server/db.ts]: the data-access functions over the drizzle tables;
    - [server/websocket.ts]: the room registry and the [join_room],
      [update], [cursor_update] and [disconnect] listeners of the socket
      server, and the sharing router;
    - the offline recovery manager ([OfflineRecoveryManager]);
    - the client hook [useCollaborativeEditor].

    External libraries are kept abstract or modelled by what the code
    relies on:
    - Yjs is an interface: a document type, the empty document,
      [applyUpdate], which works in place and may throw, and
      [encodeStateAsUpdate] ([Yjs] class); the shared text of the client
      with [toString], [insert] and [delete] ([YText] class);
    - drizzle conditions are predicates on rows; the JavaScript [&&]
      between two condition objects is modelled by what JavaScript
      computes for two objects;
    - socket.io channels are sets of socket identifiers.

    Concurrency. The [update] listener is modelled in its two halves, up
    to its [await addOperation(...)] and from there on, and other
    listeners may run in between ([ev_update_begin], [ev_update_resume]);
    [ev_update] is the listener when nothing runs in between. The
    [join_room], [cursor_update] and [disconnect] listeners are run to
    completion before the next event is taken; [persistSnapshot], which
    its callers do not await, is taken to finish before the next event
    too. A socket identifier stands for one connection. The listeners of
    [sync_step1] and [ping] change neither the registry, the documents nor
    the operations and are left out. JavaScript numbers are [Z];
    [Date.now()] is an input of each event. *)

From Stdlib Require Import ZArith String Ascii List Lia.
From Stdlib.Strings Require Import Byte.
From stdpp Require Import base option list gmap strings sorting.
Import ListNotations.

Local Open Scope Z_scope.
Local Open Scope string_scope.
Local Open Scope list_scope.

(** A [Uint8Array]. *)
Abbreviation bytes := (list byte).

(** The outcome of awaiting a promise or of running code inside a [try]:
    a value, or a thrown error. *)
Inductive Result (A : Type) : Type :=
| Ok (a : A)
| Thrown.
Arguments Ok {A} a.
Arguments Thrown {A}.

(** * The Yjs interface *)

(** [Y.Doc], [new Y.Doc()], [Y.applyUpdate] and [Y.encodeStateAsUpdate].
    [Y.applyUpdate] changes the document it is given and may throw: a
    call yields whether it returned or threw, and the document as it
    leaves it. Nothing is assumed about the document after a throw (the
    library may have integrated part of the update by then). *)
Class Yjs := {
  YDoc : Type;
  Y_Doc : YDoc;
  Y_applyUpdate : YDoc -> bytes -> Result unit * YDoc;
  Y_encodeStateAsUpdate : YDoc -> bytes;
}.

(** * drizzle-orm conditions *)
Module drizzle.

(** An SQL condition over rows of type [R]. *)
Record SQL (R : Type) : Type := sql { holds : R -> bool }.
Arguments sql {R} holds.
Arguments holds {R} s r.

Definition eq {R A : Type} `{EqDecision A} (col : R -> A) (v : A) : SQL R :=
  sql (fun r => bool_decide (col r = v)).

Definition gt {R : Type} (col : R -> Z) (v : Z) : SQL R :=
  sql (fun r => bool_decide (v < col r)).

(** JavaScript truthiness of a condition: it is an object, hence truthy. *)
Definition truthy {R : Type} (c : SQL R) : bool := true.

(** JavaScript [a && b]: [a] when [a] is falsy, [b] otherwise. *)
Definition js_and {R : Type} (a b : SQL R) : SQL R :=
  if truthy a then b else a.

(** [.where(c)] on the rows of a table. *)
Definition where_ {R : Type} (rows : list R) (c : SQL R) : list R :=
  List.filter (holds c) rows.

(** [.limit(1)] followed by [result.length > 0 ? result[0] : undefined]. *)
Definition first_row {R : Type} (rows : list R) : option R := head rows.

(** [.orderBy(col)]: ascending, rows with equal keys keep their order. *)
Fixpoint insert_by {R : Type} (col : R -> Z) (x : R) (l : list R) : list R :=
  match l with
  | [] => [x]
  | y :: l' => if Z.leb (col x) (col y) then x :: l else y :: insert_by col x l'
  end.

Definition orderBy {R : Type} (col : R -> Z) (rows : list R) : list R :=
  foldr (insert_by col) [] rows.

End drizzle.

(** * The tables *)

(** [drizzle/schema], which declares the tables, is not among the
    sources: the rows below carry the columns that the code reads and
    writes, with the types of the data model. A base64 text column is
    represented by the bytes it decodes to ([Buffer.from(_, "base64")]
    never throws); a falsy [snapshotState] is [None]. *)
Module schema.

(** Modelled from the spec: a row of [users] (the table declaration in
    [drizzle/schema] is missing). *)
Record User := {
  user_id : Z;
  user_openId : string;
  user_name : string;
}.

(** Modelled from the spec: a row of [documents] (the table declaration
    in [drizzle/schema] is missing). *)
Record Document := {
  doc_id : Z;
  doc_ownerId : Z;
  doc_snapshotState : option bytes;
  doc_snapshotVersion : option Z;
}.

(** Modelled from the spec: a row of [documentPermissions] (the table
    declaration in [drizzle/schema] is missing). *)
Record Permission := {
  perm_documentId : Z;
  perm_userId : Z;
  perm_role : string;
}.

(** Modelled from the spec: a row of [operations] (the table declaration
    in [drizzle/schema] is missing). *)
Record Operation := {
  op_documentId : Z;
  op_clientId : string;
  op_userId : Z;
  op_updateData : bytes;
  op_lamportTime : Z;
  op_vectorClock : gmap string Z;
  op_version : Z;
}.

(** Modelled from the spec: a row of [sessions] (the table declaration
    in [drizzle/schema] is missing). *)
Record SessionRow := {
  sess_documentId : Z;
  sess_userId : Z;
  sess_clientId : string;
  sess_userColor : string;
}.

(** Modelled from the spec: a row of [offlineQueue] (the table
    declaration in [drizzle/schema] is missing). *)
Record OfflineEntry := {
  oq_clientId : string;
  oq_documentId : Z;
  oq_updateData : bytes;
  oq_sequenceNumber : Z;
}.

(** The tables, each with its rows in insertion order. *)
Record Tables := {
  users : list User;
  documents : list Document;
  documentPermissions : list Permission;
  operations : list Operation;
  sessions : list SessionRow;
  offlineQueue : list OfflineEntry;
}.

End schema.
Export schema.

(** A row handed to [insert(table).values(row)]. *)
Inductive Insert :=
| into_operations (r : Operation)
| into_sessions (r : SessionRow)
| into_offlineQueue (r : OfflineEntry).

(** A drizzle handle: the tables behind it, whether the backend currently
    answers ([online = false]: every statement rejects), and which rows
    it accepts to insert into the tables as they are. The keys and
    constraints of the tables are declared in [drizzle/schema], which is
    not among the sources: [accepts] stands for them, and an insert that
    the backend refuses rejects although the reads before it were
    answered. *)
Record Handle := {
  online : bool;
  tables : Tables;
  accepts : Tables -> Insert -> bool;
}.

(** The module variable [_db] once [getDb] has run: [None] when no
    [DATABASE_URL] is configured. *)
Abbreviation Store := (option Handle).

(** * server/db.ts *)
Module db.
Import drizzle.

Definition getDb (st : Store) : option Handle := st.

(** Awaiting a read query. *)
Definition query {A : Type} (h : Handle) (f : Tables -> A) : Result A :=
  if online h then Ok (f (tables h)) else Thrown.

(** Awaiting a delete or an update. *)
Definition execute (h : Handle) (f : Tables -> Tables) : Result Store :=
  if online h
  then Ok (Some {| online := true; tables := f (tables h);
                   accepts := accepts h |})
  else Thrown.

Definition getUserByOpenId (st : Store) (openId : string)
  : Result (option User) :=
  match getDb st with
  | None => Ok None
  | Some h =>
      query h (fun t => first_row (where_ (users t) (eq user_openId openId)))
  end.

Definition getDocument (st : Store) (documentId : Z)
  : Result (option Document) :=
  match getDb st with
  | None => Ok None
  | Some h =>
      query h (fun t => first_row (where_ (documents t) (eq doc_id documentId)))
  end.

Definition checkDocumentAccess (st : Store) (documentId userId : Z)
  : Result (option Permission) :=
  match getDb st with
  | None => Ok None
  | Some h =>
      query h (fun t =>
        first_row (where_ (documentPermissions t)
          (js_and (eq perm_documentId documentId) (eq perm_userId userId))))
  end.

Definition set_operations (f : list Operation -> list Operation) (t : Tables)
  : Tables :=
  {| users := users t; documents := documents t;
     documentPermissions := documentPermissions t;
     operations := f (operations t);
     sessions := sessions t; offlineQueue := offlineQueue t |}.

Definition set_sessions (f : list SessionRow -> list SessionRow) (t : Tables)
  : Tables :=
  {| users := users t; documents := documents t;
     documentPermissions := documentPermissions t;
     operations := operations t;
     sessions := f (sessions t); offlineQueue := offlineQueue t |}.

Definition set_offlineQueue (f : list OfflineEntry -> list OfflineEntry)
  (t : Tables) : Tables :=
  {| users := users t; documents := documents t;
     documentPermissions := documentPermissions t;
     operations := operations t;
     sessions := sessions t; offlineQueue := f (offlineQueue t) |}.

(** The tables once a row has been inserted: it is the last of its
    table. *)
Definition add_row (row : Insert) (t : Tables) : Tables :=
  match row with
  | into_operations r => set_operations (fun ops => ops ++ [r]) t
  | into_sessions r => set_sessions (fun ss => ss ++ [r]) t
  | into_offlineQueue r => set_offlineQueue (fun q => q ++ [r]) t
  end.

(** Awaiting an insert. *)
Definition insert (h : Handle) (row : Insert) : Result Store :=
  if online h && accepts h (tables h) row
  then Ok (Some {| online := true; tables := add_row row (tables h);
                   accepts := accepts h |})
  else Thrown.

Definition addOperation (st : Store) (documentId : Z) (clientId : string)
  (userId : Z) (updateData : bytes) (lamportTime : Z)
  (vectorClock : gmap string Z) (version : Z) : Result Store :=
  match getDb st with
  | None => Thrown
  | Some h =>
      insert h (into_operations
        {| op_documentId := documentId; op_clientId := clientId;
           op_userId := userId; op_updateData := updateData;
           op_lamportTime := lamportTime; op_vectorClock := vectorClock;
           op_version := version |})
  end.

Definition getOperationsSince (st : Store) (documentId version : Z)
  : Result (list Operation) :=
  match getDb st with
  | None => Ok []
  | Some h =>
      query h (fun t =>
        orderBy op_version (where_ (operations t)
          (js_and (eq op_documentId documentId) (gt op_version version))))
  end.

Definition createSession (st : Store) (documentId userId : Z)
  (clientId userColor : string) : Result Store :=
  match getDb st with
  | None => Thrown
  | Some h =>
      insert h (into_sessions
        {| sess_documentId := documentId; sess_userId := userId;
           sess_clientId := clientId; sess_userColor := userColor |})
  end.

Definition deleteSession (st : Store) (clientId : string) : Result Store :=
  match getDb st with
  | None => Ok st
  | Some h =>
      execute h (set_sessions (fun ss =>
        List.filter (fun r => negb (holds (eq sess_clientId clientId) r)) ss))
  end.

Definition addOfflineOperation (st : Store) (clientId : string)
  (documentId : Z) (updateData : bytes) (sequenceNumber : Z) : Result Store :=
  match getDb st with
  | None => Thrown
  | Some h =>
      insert h (into_offlineQueue
        {| oq_clientId := clientId; oq_documentId := documentId;
           oq_updateData := updateData;
           oq_sequenceNumber := sequenceNumber |})
  end.

Definition getOfflineQueue (st : Store) (clientId : string) (documentId : Z)
  : Result (list OfflineEntry) :=
  match getDb st with
  | None => Ok []
  | Some h =>
      query h (fun t =>
        orderBy oq_sequenceNumber (where_ (offlineQueue t)
          (js_and (eq oq_clientId clientId) (eq oq_documentId documentId))))
  end.

Definition clearOfflineQueue (st : Store) (clientId : string) (documentId : Z)
  : Result Store :=
  match getDb st with
  | None => Ok st
  | Some h =>
      execute h (set_offlineQueue (fun q =>
        List.filter (fun r => negb (holds
          (js_and (eq oq_clientId clientId) (eq oq_documentId documentId)) r))
          q))
  end.

End db.

(** * The offline recovery manager *)
Module OfflineRecoveryManager.
Section WithYjs.
Context `{Yjs}.

Record Counts := { recovered : Z; conflicts : Z }.

Definition queueOfflineOperation (st : Store) (clientId : string)
  (documentId : Z) (update : bytes) (sequenceNumber : Z) : Result Store :=
  db.addOfflineOperation st clientId documentId update sequenceNumber.

(** The [for ... of] loop: one [try { applyUpdate; recovered++ }
    catch { conflicts++ }] per queued entry, each on the document as the
    call before left it. *)
Fixpoint apply_queued (queuedOps : list OfflineEntry) (ydoc : YDoc)
  (c : Counts) : YDoc * Counts :=
  match queuedOps with
  | [] => (ydoc, c)
  | queuedOp :: rest =>
      match Y_applyUpdate ydoc (oq_updateData queuedOp) with
      | (Ok _, ydoc') =>
          apply_queued rest ydoc'
            {| recovered := recovered c + 1; conflicts := conflicts c |}
      | (Thrown, ydoc') =>
          apply_queued rest ydoc'
            {| recovered := recovered c; conflicts := conflicts c + 1 |}
      end
  end.

(** The result, the store and the document after the call. A storage
    error is rethrown by the outer [catch]. *)
Definition recoverOfflineOperations (st : Store) (clientId : string)
  (documentId : Z) (ydoc : YDoc) : Result Counts * Store * YDoc :=
  match db.getOfflineQueue st clientId documentId with
  | Thrown => (Thrown, st, ydoc)
  | Ok queuedOps =>
      if bool_decide (length queuedOps = 0%nat)
      then (Ok {| recovered := 0; conflicts := 0 |}, st, ydoc)
      else
        let '(ydoc', c) :=
          apply_queued queuedOps ydoc {| recovered := 0; conflicts := 0 |} in
        match db.clearOfflineQueue st clientId documentId with
        | Thrown => (Thrown, st, ydoc')
        | Ok st' => (Ok c, st', ydoc')
        end
  end.

End WithYjs.
End OfflineRecoveryManager.

(** * A JavaScript [Map] with its insertion order *)

(** [room.users] is iterated ([Array.from(room.users.values())]), so the
    order of its entries is kept: an association list in which [set]
    overwrites in place and appends a new key at the end. *)
Module JSMap.
Section Ops.
Context {K V : Type} `{EqDecision K}.

Fixpoint set (k : K) (v : V) (m : list (K * V)) : list (K * V) :=
  match m with
  | [] => [(k, v)]
  | (k', v') :: m' =>
      if decide (k' = k) then (k, v) :: m' else (k', v') :: set k v m'
  end.

Fixpoint get (k : K) (m : list (K * V)) : option V :=
  match m with
  | [] => None
  | (k', v') :: m' => if decide (k' = k) then Some v' else get k m'
  end.

Definition delete (k : K) (m : list (K * V)) : list (K * V) :=
  List.filter (fun kv => negb (bool_decide (kv.1 = k))) m.

Definition keys (m : list (K * V)) : list K := map fst m.
Definition values (m : list (K * V)) : list V := map snd m.
Definition size (m : list (K * V)) : nat := length m.

End Ops.
End JSMap.

(** * server/websocket.ts *)
Module websocket.

Record JwtPayload := { openId : string; exp : Z }.

(** [JSON.parse(Buffer.from(segment, "base64").toString())] as used by
    [parseJWT]: [None] when [JSON.parse] throws or yields [null]. The
    payload is read at the type the source declares for it. *)
Class Json := {
  JSON_parse_base64 : string -> option JwtPayload;
}.

Record JoinRoomMessage := {
  jr_documentId : Z;
  jr_clientId : string;
  jr_token : option string;  (* [None]: the field is missing *)
}.

Record UpdateMessage := {
  um_update : bytes;
  um_clientId : string;
}.

Record UserSession := {
  userId : Z;
  clientId : string;
  documentId : Z;
  color : string;
  lastHeartbeat : Z;
}.

Record BufferedOp := {
  bo_update : bytes;
  bo_clientId : string;
  bo_timestamp : Z;
}.

Record Snapshot := { version : Z; timestamp : Z }.

(** The wire messages the server emits, and where it emits them. *)
Inductive ErrorCode :=
| AUTH_FAILED | USER_NOT_FOUND | NOT_FOUND | ACCESS_DENIED
| SERVER_ERROR | NOT_IN_ROOM | UPDATE_FAILED.

Record RoomUser := { ru_clientId : string; ru_userId : Z; ru_color : string }.

Inductive Message :=
| error (code : ErrorCode)
| room_joined (documentId : Z) (clientId : string) (users : list RoomUser)
    (docState : bytes) (lamportTime : Z)
| user_joined (userId : Z) (clientId : string) (name : string) (color : string)
| user_left (clientId : string) (userId : Z)
| update (update : bytes) (clientId : string) (lamportTime : Z) (timestamp : Z).

Inductive Target :=
| to_socket (sid : nat)                  (* [socket.emit] *)
| io_to (documentId : Z)                 (* [io.to("doc:" + id).emit] *)
| socket_to (sid : nat) (documentId : Z) (* [socket.to("doc:" + id).emit] *).

Inductive Effect :=
| emit (t : Target) (m : Message)
| log_snapshot_persisted (documentId : Z)
    (* [console.log("[CRDT] Snapshot persisted for document ...")] *).

(** What the [update] listener holds while it awaits [addOperation]: its
    socket, the room object it took from the registry, the bytes and the
    client id of the message, and whether the insert it issued is
    fulfilled. The room object is named by its document and by the
    number of rooms of that document that had been dropped from the
    registry before it was created. *)
Record Suspended := {
  sus_sid : nat;
  sus_documentId : Z;
  sus_generation : nat;
  sus_update : bytes;
  sus_clientId : string;
  sus_inserted : bool;
}.

Section WithYjs.
Context `{Yjs} `{Json}.

Record DocumentRoom := {
  doc : YDoc;
  users : list (string * UserSession);   (* a [Map], see [JSMap] *)
  lamportTime : Z;
  vectorClocks : gmap string Z;
  operationBuffer : list BufferedOp;
  lastSnapshot : Snapshot;
}.

(** The state of the process: the store behind [getDb], the [rooms]
    registry, the room objects that were deleted from the registry and
    that a suspended listener may still hold ([dropped], per document,
    oldest first), [colorIndex], the [currentSession] variable of each
    connection (absent: [null]) and the socket.io channels
    ["doc:<documentId>"], keyed by the document. *)
Record Server := {
  store : Store;
  rooms : gmap Z DocumentRoom;
  dropped : gmap Z (list DocumentRoom);
  colorIndex : nat;
  currentSession : gmap nat UserSession;
  channels : gmap Z (gset nat);
}.

Definition set_store (st : Store) (s : Server) : Server :=
  {| store := st; rooms := rooms s; dropped := dropped s;
     colorIndex := colorIndex s;
     currentSession := currentSession s; channels := channels s |}.

Definition set_rooms (r : gmap Z DocumentRoom) (s : Server) : Server :=
  {| store := store s; rooms := r; dropped := dropped s;
     colorIndex := colorIndex s;
     currentSession := currentSession s; channels := channels s |}.

Definition set_dropped (d : gmap Z (list DocumentRoom)) (s : Server)
  : Server :=
  {| store := store s; rooms := rooms s; dropped := d;
     colorIndex := colorIndex s;
     currentSession := currentSession s; channels := channels s |}.

Definition set_colorIndex (n : nat) (s : Server) : Server :=
  {| store := store s; rooms := rooms s; dropped := dropped s;
     colorIndex := n;
     currentSession := currentSession s; channels := channels s |}.

Definition set_currentSession (c : gmap nat UserSession) (s : Server)
  : Server :=
  {| store := store s; rooms := rooms s; dropped := dropped s;
     colorIndex := colorIndex s;
     currentSession := c; channels := channels s |}.

Definition set_channels (c : gmap Z (gset nat)) (s : Server) : Server :=
  {| store := store s; rooms := rooms s; dropped := dropped s;
     colorIndex := colorIndex s;
     currentSession := currentSession s; channels := c |}.

(** The rooms of a document that have been dropped so far, and the room
    object a suspended listener holds: the dropped room of its
    generation, or else the room that is registered. *)
Definition dropped_rooms (s : Server) (documentId : Z) : list DocumentRoom :=
  default [] (dropped s !! documentId).

Definition held_room (s : Server) (k : Suspended) : option DocumentRoom :=
  match dropped_rooms s (sus_documentId k) !! sus_generation k with
  | Some room => Some room
  | None => rooms s !! sus_documentId k
  end.

(** The sockets a message emitted at a target reaches. *)
Definition channel (s : Server) (documentId : Z) : gset nat :=
  default ∅ (channels s !! documentId).

Definition receivers (s : Server) (t : Target) : gset nat :=
  match t with
  | to_socket sid => {[sid]}
  | io_to documentId => channel s documentId
  | socket_to sid documentId => channel s documentId ∖ {[sid]}
  end.

(** ** Handlers as state transformers that may throw and that emit *)

Definition M (A : Type) : Type := Server -> Result A * Server * list Effect.

Definition ret {A : Type} (a : A) : M A := fun s => (Ok a, s, []).

Definition throw {A : Type} : M A := fun s => (Thrown, s, []).

Definition bind {A B : Type} (m : M A) (k : A -> M B) : M B := fun s =>
  match m s with
  | (Ok a, s1, e1) => let '(r, s2, e2) := k a s1 in (r, s2, e1 ++ e2)
  | (Thrown, s1, e1) => (Thrown, s1, e1)
  end.

(** [try { m } catch { handler }]: what [m] changed before throwing stays. *)
Definition try_catch {A : Type} (m : M A) (handler : M A) : M A := fun s =>
  match m s with
  | (Ok a, s1, e1) => (Ok a, s1, e1)
  | (Thrown, s1, e1) => let '(r, s2, e2) := handler s1 in (r, s2, e1 ++ e2)
  end.

Definition get_state : M Server := fun s => (Ok s, s, []).
Definition modify (f : Server -> Server) : M unit := fun s => (Ok tt, f s, []).
Definition tell (e : Effect) : M unit := fun s => (Ok tt, s, [e]).

(** [await] of a data-access function that reads, or that writes. *)
Definition await {A : Type} (f : Store -> Result A) : M A := fun s =>
  (f (store s), s, []).

Definition await_write (f : Store -> Result Store) : M unit := fun s =>
  match f (store s) with
  | Ok st' => (Ok tt, set_store st' s, [])
  | Thrown => (Thrown, s, [])
  end.

(** The call of a data-access function that writes, up to the point where
    the caller is suspended: the statement is executed when it is issued,
    and whether the promise is fulfilled is what the caller finds when it
    resumes. *)
Definition issue (f : Store -> Result Store) : M bool := fun s =>
  match f (store s) with
  | Ok st' => (Ok true, set_store st' s, [])
  | Thrown => (Ok false, s, [])
  end.

End WithYjs.

Notation "x <- m ;; k" := (bind m (fun x => k))
  (at level 100, m at next level, right associativity, only parsing).
Notation "m ;;; k" := (bind m (fun _ => k))
  (at level 100, right associativity, only parsing).

Section Handlers.
Context `{Yjs} `{Json}.

Definition COLORS : list string :=
  ["#FF6B6B"; "#4ECDC4"; "#45B7D1"; "#FFA07A";
   "#98D8C8"; "#F7DC6F"; "#BB8FCE"; "#85C1E2"].

Definition getNextColor : M string := fun s =>
  let color := nth (colorIndex s mod length COLORS)%nat COLORS EmptyString in
  (Ok color, set_colorIndex (S (colorIndex s)) s, []).

(** [token.split(".")]. *)
Fixpoint split_dot (s : string) : list string :=
  match s with
  | EmptyString => [EmptyString]
  | String c s' =>
      if Ascii.eqb c "." then EmptyString :: split_dot s'
      else match split_dot s' with
           | [] => [String c EmptyString]
           | p :: ps => String c p :: ps
           end
  end.

(** A missing token makes [token.split] throw inside the [try]. *)
Definition parseJWT (token : option string) : option JwtPayload :=
  match token with
  | None => None
  | Some token =>
      let parts := split_dot token in
      if negb (Nat.eqb (length parts) 3) then None
      else JSON_parse_base64 (nth 1 parts EmptyString)
  end.

Definition put_room (documentId : Z) (room : DocumentRoom) : M unit :=
  modify (fun s => set_rooms (<[documentId := room]> (rooms s)) s).

Definition getOrCreateRoom (documentId : Z) (now : Z)
  : M (option DocumentRoom) :=
  s <- get_state ;;
  match rooms s !! documentId with
  | Some room => ret (Some room)
  | None =>
      doc <- await (fun st => db.getDocument st documentId) ;;
      match doc with
      | None => ret None
      | Some doc =>
          let ydoc :=
            match doc_snapshotState doc with
            | Some state => snd (Y_applyUpdate Y_Doc state)
            | None => Y_Doc
            end in
          let room :=
            {| doc := ydoc; users := []; lamportTime := 0;
               vectorClocks := ∅; operationBuffer := [];
               lastSnapshot :=
                 {| version := default 0 (doc_snapshotVersion doc);
                    timestamp := now |} |} in
          put_room documentId room ;;;
          ret (Some room)
      end
  end.

(** [persistSnapshot] works on the room object it is given and returns it
    as it leaves it; the encoded state is computed and not used. *)
Definition persistSnapshot (documentId : Z) (room : DocumentRoom) (now : Z)
  : M DocumentRoom :=
  let state := Y_encodeStateAsUpdate (doc room) in
  s <- get_state ;;
  match db.getDb (store s) with
  | Some _ => tell (log_snapshot_persisted documentId)
  | None => ret tt
  end ;;;
  ret {| doc := doc room; users := users room;
         lamportTime := lamportTime room;
         vectorClocks := vectorClocks room;
         operationBuffer := [];
         lastSnapshot :=
           {| version := version (lastSnapshot room) + 1;
              timestamp := now |} |}.

Definition broadcastUpdate (documentId : Z) (upd : bytes)
  (clientId : string) (lamport : Z) (now : Z) : M unit :=
  s <- get_state ;;
  match rooms s !! documentId with
  | None => ret tt
  | Some room =>
      tell (emit (io_to documentId) (update upd clientId lamport now)) ;;;
      let room :=
        {| doc := doc room; users := users room;
           lamportTime := lamportTime room;
           vectorClocks := vectorClocks room;
           operationBuffer := operationBuffer room ++
             [{| bo_update := upd; bo_clientId := clientId;
                 bo_timestamp := now |}];
           lastSnapshot := lastSnapshot room |} in
      put_room documentId room ;;;
      if (100 <? length (operationBuffer room))%nat
      then room' <- persistSnapshot documentId room now ;;
           put_room documentId room'
      else ret tt
  end.

(** [socket.join("doc:" + documentId)]. *)
Definition socket_join (sid : nat) (documentId : Z) : M unit :=
  modify (fun s =>
    set_channels (<[documentId := {[sid]} ∪ channel s documentId]> (channels s)) s).

Definition on_join_room (sid : nat) (message : JoinRoomMessage) (now : Z)
  : M unit :=
  try_catch
    (let documentId := jr_documentId message in
     let clientId := jr_clientId message in
     match parseJWT (jr_token message) with
     | None => tell (emit (to_socket sid) (error AUTH_FAILED))
     | Some payload =>
     user <- await (fun st => db.getUserByOpenId st (openId payload)) ;;
     match user with
     | None => tell (emit (to_socket sid) (error USER_NOT_FOUND))
     | Some user =>
     room <- getOrCreateRoom documentId now ;;
     match room with
     | None => tell (emit (to_socket sid) (error NOT_FOUND))
     | Some room =>
     doc_ <- await (fun st => db.getDocument st documentId) ;;
     denied <-
       match doc_ with
       | Some doc_ =>
           if bool_decide (doc_ownerId doc_ ≠ user_id user)
           then access <- await (fun st =>
                  db.checkDocumentAccess st documentId (user_id user)) ;;
                ret (bool_decide (access = None))
           else ret false
       | None => ret false
       end ;;
     if denied : bool then tell (emit (to_socket sid) (error ACCESS_DENIED))
     else
     color <- getNextColor ;;
     let session :=
       {| userId := user_id user; clientId := clientId;
          documentId := documentId; color := color;
          lastHeartbeat := now |} in
     modify (fun s =>
       set_currentSession (<[sid := session]> (currentSession s)) s) ;;;
     let room :=
       {| doc := doc room;
          users := JSMap.set clientId session (users room);
          lamportTime := lamportTime room;
          vectorClocks := vectorClocks room;
          operationBuffer := operationBuffer room;
          lastSnapshot := lastSnapshot room |} in
     put_room documentId room ;;;
     await_write (fun st =>
       db.createSession st documentId (user_id user) clientId color) ;;;
     socket_join sid documentId ;;;
     let state := Y_encodeStateAsUpdate (doc room) in
     tell (emit (to_socket sid)
       (room_joined documentId clientId
          (map (fun u => {| ru_clientId := websocket.clientId u;
                            ru_userId := userId u;
                            ru_color := websocket.color u |})
               (JSMap.values (users room)))
          state (lamportTime room))) ;;;
     tell (emit (socket_to sid documentId)
       (user_joined (user_id user) clientId (user_name user) color))
     end end end)
    (tell (emit (to_socket sid) (error SERVER_ERROR))).

(** The [update] listener up to its [await addOperation(...)]. The
    document is the one [Y.applyUpdate] leaves, also when it throws; the
    catch of the listener then answers at once. Otherwise the clocks are
    advanced, the arguments of [addOperation] are taken from the room as
    it is now, the insert is issued and the listener is suspended. *)
Definition on_update_begin (sid : nat) (message : UpdateMessage)
  : M (option Suspended) :=
  try_catch
    (s <- get_state ;;
     match currentSession s !! sid with
     | None => tell (emit (to_socket sid) (error NOT_IN_ROOM)) ;;; ret None
     | Some cs =>
     match rooms s !! documentId cs with
     | None => ret None
     | Some room =>
     match Y_applyUpdate (doc room) (um_update message) with
     | (Thrown, ydoc) =>
         put_room (documentId cs)
           {| doc := ydoc; users := users room;
              lamportTime := lamportTime room;
              vectorClocks := vectorClocks room;
              operationBuffer := operationBuffer room;
              lastSnapshot := lastSnapshot room |} ;;;
         throw
     | (Ok _, ydoc) =>
     let room :=
       {| doc := ydoc; users := users room;
          lamportTime := lamportTime room + 1;
          vectorClocks :=
            <[um_clientId message :=
                default 0 (vectorClocks room !! um_clientId message) + 1]>
              (vectorClocks room);
          operationBuffer := operationBuffer room;
          lastSnapshot := lastSnapshot room |} in
     put_room (documentId cs) room ;;;
     inserted <- issue (fun st =>
       db.addOperation st (documentId cs) (um_clientId message) (userId cs)
         (um_update message) (lamportTime room) (vectorClocks room)
         (version (lastSnapshot room)
          + Z.of_nat (length (operationBuffer room)))) ;;
     ret (Some {| sus_sid := sid;
                  sus_documentId := documentId cs;
                  sus_generation := length (dropped_rooms s (documentId cs));
                  sus_update := um_update message;
                  sus_clientId := um_clientId message;
                  sus_inserted := inserted |})
     end end end)
    (tell (emit (to_socket sid) (error UPDATE_FAILED)) ;;; ret None).

(** The [update] listener from its [await] on. A rejected insert goes to
    the catch. Otherwise [currentSession] and the lamport time of the
    room object the listener holds are read as they are now, and
    [broadcastUpdate] looks the document up in the registry again. (A
    listener that was suspended has a session and holds a room: the
    other case does not arise.) *)
Definition on_update_resume (k : Suspended) (now : Z) : M unit :=
  try_catch
    (if sus_inserted k
     then
       s <- get_state ;;
       match currentSession s !! sus_sid k, held_room s k with
       | Some cs, Some room =>
           broadcastUpdate (documentId cs) (sus_update k) (sus_clientId k)
             (lamportTime room) now
       | _, _ => ret tt
       end
     else throw)
    (tell (emit (to_socket (sus_sid k)) (error UPDATE_FAILED))).

(** The [update] listener when no other listener runs while it is
    suspended. *)
Definition on_update (sid : nat) (message : UpdateMessage) (now : Z)
  : M unit :=
  k <- on_update_begin sid message ;;
  match k with
  | Some k => on_update_resume k now
  | None => ret tt
  end.

(** socket.io takes the socket out of its channels before the
    ["disconnect"] listener runs. *)
Definition socket_leave_all (sid : nat) : M unit :=
  modify (fun s => set_channels ((fun c => c ∖ {[sid]}) <$> channels s) s).

(** The ["disconnect"] listener. It does not reset [currentSession]: a
    listener of the socket that is still suspended reads it when it
    resumes. A room that is deleted from the registry stays as it is
    for the listeners that hold it. *)
Definition on_disconnect (sid : nat) (now : Z) : M unit :=
  socket_leave_all sid ;;;
  try_catch
    (s <- get_state ;;
     match currentSession s !! sid with
     | None => ret tt
     | Some cs =>
         match rooms s !! documentId cs with
         | None => ret tt
         | Some room =>
             let room :=
               {| doc := doc room;
                  users := JSMap.delete (clientId cs) (users room);
                  lamportTime := lamportTime room;
                  vectorClocks := vectorClocks room;
                  operationBuffer := operationBuffer room;
                  lastSnapshot := lastSnapshot room |} in
             put_room (documentId cs) room ;;;
             tell (emit (socket_to sid (documentId cs))
               (user_left (clientId cs) (userId cs))) ;;;
             if Nat.eqb (JSMap.size (users room)) 0
             then room' <- persistSnapshot (documentId cs) room now ;;
                  modify (fun s =>
                    set_dropped
                      (<[documentId cs :=
                           dropped_rooms s (documentId cs) ++ [room']]>
                         (dropped s))
                      (set_rooms (delete (documentId cs) (rooms s)) s))
             else ret tt
         end ;;;
         await_write (fun st => db.deleteSession st (clientId cs))
     end)
    (ret tt).

(** ** Events and runs *)

Inductive Event :=
| ev_join_room (sid : nat) (message : JoinRoomMessage) (now : Z)
| ev_update (sid : nat) (message : UpdateMessage) (now : Z)
| ev_disconnect (sid : nat) (now : Z)
| ev_update_begin (sid : nat) (message : UpdateMessage)
| ev_update_resume (k : Suspended) (now : Z).

Definition handle (ev : Event) : M unit :=
  match ev with
  | ev_join_room sid message now => on_join_room sid message now
  | ev_update sid message now => on_update sid message now
  | ev_disconnect sid now => on_disconnect sid now
  | ev_update_begin sid message => on_update_begin sid message ;;; ret tt
  | ev_update_resume k now => on_update_resume k now
  end.

(** The state and what was emitted after one event, and after a list of
    events taken in order. *)
Definition step (ev : Event) (s : Server) : Server * list Effect :=
  let '(_, s', out) := handle ev s in (s', out).

Fixpoint run (evs : list Event) (s : Server) : Server * list Effect :=
  match evs with
  | [] => (s, [])
  | ev :: evs' =>
      let '(s1, out1) := step ev s in
      let '(s2, out2) := run evs' s1 in
      (s2, out1 ++ out2)
  end.

(** The server right after [setupWebSocket]. *)
Definition init (st : Store) : Server :=
  {| store := st; rooms := ∅; dropped := ∅; colorIndex := 0;
     currentSession := ∅; channels := ∅ |}.

End Handlers.

End websocket.

(** * A concrete instance for the worked scenarios *)
Module scenario.
Import websocket.

(** A state-based set of bytes: an update is merged into the sorted set
    of the bytes seen so far; on an empty update [applyUpdate] throws and
    leaves the set as it is. *)
Fixpoint add_byte (b : byte) (d : list byte) : list byte :=
  match d with
  | [] => [b]
  | c :: d' =>
      if N.ltb (Byte.to_N b) (Byte.to_N c) then b :: d
      else if N.eqb (Byte.to_N b) (Byte.to_N c) then d
      else c :: add_byte b d'
  end.

#[export] Instance byte_set : Yjs := {|
  YDoc := list byte;
  Y_Doc := [];
  Y_applyUpdate d u :=
    match u with
    | [] => (Thrown, d)
    | _ => (Ok tt, foldr add_byte d u)
    end;
  Y_encodeStateAsUpdate d := d;
|}.

(** The payload segments of three tokens, as [JSON.parse] reads them:
    alice and bob with [exp] = 1 (January 1970), carol with [exp] in 2100. *)
#[export] Instance payloads : Json := {|
  JSON_parse_base64 seg :=
    if String.eqb seg "eyJvcGVuSWQiOiJhbGljZSIsImV4cCI6MX0="
    then Some {| openId := "alice"; exp := 1 |}
    else if String.eqb seg "eyJvcGVuSWQiOiJib2IiLCJleHAiOjF9"
    then Some {| openId := "bob"; exp := 1 |}
    else if String.eqb seg "eyJvcGVuSWQiOiJjYXJvbCIsImV4cCI6NDEwMjQ0NDgwMH0="
    then Some {| openId := "carol"; exp := 4102444800 |}
    else None;
|}.

Definition alice_token : string := "h.eyJvcGVuSWQiOiJhbGljZSIsImV4cCI6MX0=.s".
Definition bob_token : string := "h.eyJvcGVuSWQiOiJib2IiLCJleHAiOjF9.s".
Definition carol_token : string :=
  "h.eyJvcGVuSWQiOiJjYXJvbCIsImV4cCI6NDEwMjQ0NDgwMH0=.s".

(** Three users; documents 1 and 2 owned by alice; bob holds a grant on
    document 2 only; carol holds none. *)
Definition the_tables : Tables := {|
  schema.users :=
    [ {| user_id := 1; user_openId := "alice"; user_name := "Alice" |};
      {| user_id := 2; user_openId := "bob"; user_name := "Bob" |};
      {| user_id := 3; user_openId := "carol"; user_name := "Carol" |} ];
  documents :=
    [ {| doc_id := 1; doc_ownerId := 1;
         doc_snapshotState := None; doc_snapshotVersion := None |};
      {| doc_id := 2; doc_ownerId := 1;
         doc_snapshotState := None; doc_snapshotVersion := None |} ];
  documentPermissions :=
    [ {| perm_documentId := 2; perm_userId := 2; perm_role := "viewer" |} ];
  operations := [];
  sessions := [];
  offlineQueue := [];
|}.

(** A backend that answers and accepts every row. *)
Definition the_store : Store :=
  Some {| online := true; tables := the_tables; accepts := fun _ _ => true |}.

(** The same tables with three queued offline entries for document 1:
    two of client ["c1"], the second of which [byte_set] refuses, and one
    of client ["c2"]. *)
Definition queued_store : Store :=
  Some {| online := true;
          tables := db.set_offlineQueue (fun _ =>
            [ {| oq_clientId := "c1"; oq_documentId := 1;
                 oq_updateData := [x01]; oq_sequenceNumber := 1 |};
              {| oq_clientId := "c1"; oq_documentId := 1;
                 oq_updateData := []; oq_sequenceNumber := 2 |};
              {| oq_clientId := "c2"; oq_documentId := 1;
                 oq_updateData := [x02]; oq_sequenceNumber := 1 |} ])
            the_tables;
          accepts := fun _ _ => true |}.

Definition join (documentId : Z) (clientId token : string) : JoinRoomMessage :=
  {| jr_documentId := documentId; jr_clientId := clientId;
     jr_token := Some token |}.

Definition upd (clientId : string) (u : bytes) : UpdateMessage :=
  {| um_update := u; um_clientId := clientId |}.

(** Alice joins document 1 on socket 7 as client ["a1"]. *)
Definition alice_joins : Event :=
  ev_join_room 7 (join 1 "a1" alice_token) 1000000.

Definition joined : Server := fst (step alice_joins (init the_store)).

(** What [joined] holds: her session, the room and the handle. *)
Definition alice_session : UserSession :=
  {| userId := 1; clientId := "a1"; documentId := 1;
     color := "#FF6B6B"; lastHeartbeat := 1000000 |}.

Definition joined_room : DocumentRoom :=
  {| doc := []; users := [("a1", alice_session)]; lamportTime := 0;
     vectorClocks := ∅; operationBuffer := [];
     lastSnapshot := {| version := 0; timestamp := 1000000 |} |}.

Definition joined_handle : Handle :=
  {| online := true;
     tables := db.set_sessions (fun _ =>
       [ {| sess_documentId := 1; sess_userId := 1;
            sess_clientId := "a1"; sess_userColor := "#FF6B6B" |} ])
       the_tables;
     accepts := fun _ _ => true |}.

(** [joined] once the backend has stopped answering. *)
Definition joined_backend_down : Server :=
  set_store (Some {| online := false; tables := tables joined_handle;
                     accepts := fun _ _ => true |})
    joined.

(** [n] updates sent by alice on socket 7, one per millisecond. *)
Fixpoint burst (n : nat) (now : Z) : list Event :=
  match n with
  | O => []
  | S n' => ev_update 7 (upd "a1" [x01]) now :: burst n' (now + 1)
  end.

End scenario.

(** * What the statements observe *)
Module observe.
Import websocket.

(** The rows of the offline queue that belong to one client and one
    document. *)
Definition offline_queue_for (st : Store) (clientId : string)
  (documentId : Z) : list OfflineEntry :=
  match st with
  | None => []
  | Some h =>
      List.filter
        (fun r => bool_decide (oq_clientId r = clientId)
                  && bool_decide (oq_documentId r = documentId))
        (offlineQueue (tables h))
  end.

(** The versions of the operation rows of one document, oldest first. *)
Definition persisted_versions (st : Store) (documentId : Z) : list Z :=
  match st with
  | None => []
  | Some h =>
      map op_version
        (List.filter (fun r => bool_decide (op_documentId r = documentId))
           (operations (tables h)))
  end.

(** Whether the insert of a row on this store is fulfilled: there is a
    handle, the backend answers and accepts the row. *)
Definition inserts (st : Store) (row : Insert) : bool :=
  match st with
  | None => false
  | Some h => online h && accepts h (tables h) row
  end.

(** The store once the row has been inserted. *)
Definition inserted (st : Store) (row : Insert) : Store :=
  match st with
  | None => None
  | Some h => Some {| online := true; tables := db.add_row row (tables h);
                      accepts := accepts h |}
  end.

(** The rows of the [documents] table. *)
Definition document_rows (st : Store) : list Document :=
  match st with
  | None => []
  | Some h => documents (tables h)
  end.

Section Rooms.
Context `{Yjs}.

(** What the [update] listener of a socket holds once it is suspended on
    the message, in the state in which it was started. *)
Definition suspended_on (s : Server) (sid : nat) (cs : UserSession)
  (message : UpdateMessage) (inserted : bool) : Suspended :=
  {| sus_sid := sid;
     sus_documentId := documentId cs;
     sus_generation := length (dropped_rooms s (documentId cs));
     sus_update := um_update message;
     sus_clientId := um_clientId message;
     sus_inserted := inserted |}.

(** The room with the document [Y.applyUpdate] left. *)
Definition with_doc (room : DocumentRoom) (ydoc : YDoc) : DocumentRoom :=
  {| doc := ydoc; users := users room;
     lamportTime := lamportTime room;
     vectorClocks := vectorClocks room;
     operationBuffer := operationBuffer room;
     lastSnapshot := lastSnapshot room |}.

(** The version a room hands to the next update that reaches
    [addOperation]. *)
Definition next_version (room : DocumentRoom) : Z :=
  version (lastSnapshot room) + Z.of_nat (length (operationBuffer room)).

(** The room once an update has been merged and the clocks advanced. *)
Definition after_merge (room : DocumentRoom) (ydoc : YDoc)
  (clientId : string) : DocumentRoom :=
  {| doc := ydoc; users := users room;
     lamportTime := lamportTime room + 1;
     vectorClocks :=
       <[clientId := default 0 (vectorClocks room !! clientId) + 1]>
         (vectorClocks room);
     operationBuffer := operationBuffer room;
     lastSnapshot := lastSnapshot room |}.

(** The room once the update has been buffered and, past 100 buffered
    entries, checkpointed. *)
Definition after_broadcast (room : DocumentRoom) (upd : bytes)
  (clientId : string) (now : Z) : DocumentRoom :=
  let buffer := operationBuffer room ++
    [{| bo_update := upd; bo_clientId := clientId; bo_timestamp := now |}] in
  {| doc := doc room; users := users room;
     lamportTime := lamportTime room;
     vectorClocks := vectorClocks room;
     operationBuffer := if (100 <? length buffer)%nat then [] else buffer;
     lastSnapshot :=
       if (100 <? length buffer)%nat
       then {| version := version (lastSnapshot room) + 1; timestamp := now |}
       else lastSnapshot room |}.

(** What is logged when an update is appended to the buffer of the room:
    the checkpoint line, when the buffer passes 100 entries and there is
    a handle. *)
Definition checkpoint_log (s : Server) (documentId : Z) (room : DocumentRoom)
  : list Effect :=
  if (100 <? length (operationBuffer room) + 1)%nat
  then match db.getDb (store s) with
       | Some _ => [log_snapshot_persisted documentId]
       | None => []
       end
  else [].

(** The operation row the update handler inserts. *)
Definition operation_row (cs : UserSession) (message : UpdateMessage)
  (room : DocumentRoom) (ydoc : YDoc) : Operation :=
  {| op_documentId := documentId cs;
     op_clientId := um_clientId message;
     op_userId := userId cs;
     op_updateData := um_update message;
     op_lamportTime := lamportTime room + 1;
     op_vectorClock :=
       vectorClocks (after_merge room ydoc (um_clientId message));
     op_version :=
       version (lastSnapshot room)
       + Z.of_nat (length (operationBuffer room)) |}.


End Rooms.

End observe.

(** * server/db.ts: the queries the handlers above do not call *)
Module db_rest.
Import drizzle.

Definition getDocumentPermissions (st : Store) (documentId : Z)
  : Result (list Permission) :=
  match db.getDb st with
  | None => Ok []
  | Some h =>
      db.query h (fun t =>
        where_ (documentPermissions t) (eq perm_documentId documentId))
  end.


End db_rest.

(** * What the further statements observe *)
Module properties.
Import websocket.

(** The sum of the entries of a vector clock. *)
Definition vector_total (vc : gmap string Z) : Z :=
  map_fold (fun _ v acc => v + acc) 0 vc.

(** The rows of the [sessions] table and of the offline queue. *)
Definition session_rows (st : Store) : list SessionRow :=
  match st with
  | None => []
  | Some h => sessions (tables h)
  end.

Definition offline_rows (st : Store) : list OfflineEntry :=
  match st with
  | None => []
  | Some h => offlineQueue (tables h)
  end.

Definition operation_rows (st : Store) : list Operation :=
  match st with
  | None => []
  | Some h => operations (tables h)
  end.

(** The number of dots of a token. *)
Fixpoint dots (s : string) : nat :=
  match s with
  | EmptyString => 0
  | String c s' => (if Ascii.eqb c "." then 1 else 0) + dots s'
  end.

Section Rooms.
Context `{Yjs}.

(** In every room the lamport time is the total of the vector clock. *)
Definition clocks_wf (s : Server) : Prop :=
  forall d r, rooms s !! d = Some r ->
    lamportTime r = vector_total (vectorClocks r).

(** No room buffers more than 100 operations. *)
Definition buffers_wf (s : Server) : Prop :=
  forall d r, rooms s !! d = Some r ->
    (length (operationBuffer r) <= 100)%nat.

(** The room object a suspended listener names has been dropped, or it
    is the room that is registered for its document. *)
Definition holds (s : Server) (k : Suspended) : Prop :=
  (sus_generation k < length (dropped_rooms s (sus_documentId k)))%nat
  \/ (sus_generation k = length (dropped_rooms s (sus_documentId k))
      /\ is_Some (rooms s !! sus_documentId k)).

(** The document an event is about: the one the message names for a
    join, the one of the socket's session otherwise. *)
Definition event_document (s : Server) (ev : Event) : option Z :=
  match ev with
  | ev_join_room _ message _ => Some (jr_documentId message)
  | ev_update sid _ _ => documentId <$> currentSession s !! sid
  | ev_disconnect sid _ => documentId <$> currentSession s !! sid
  | ev_update_begin sid _ => documentId <$> currentSession s !! sid
  | ev_update_resume k _ => documentId <$> currentSession s !! sus_sid k
  end.

End Rooms.

End properties.

(** * server/db.ts: [upsertUser] *)
Module upsert.

(** A property of a JavaScript object: absent ([undefined]), [null], or a
    value. *)
Inductive Field (A : Type) : Type :=
| undefined
| null
| value (a : A).
Arguments undefined {A}.
Arguments null {A}.
Arguments value {A} a.

(** [InsertUser] as [upsertUser] reads it ([drizzle/schema], which
    declares it, is not among the sources); a [Date] is its time in
    milliseconds. *)
Record InsertUser := {
  openId : string;
  name : Field string;
  email : Field string;
  loginMethod : Field string;
  lastSignedIn : Field Z;
  role : Field string;
}.

(** The [updateSet] object: the keys it may hold. *)
Record UpdateSet := {
  set_name : Field string;
  set_email : Field string;
  set_loginMethod : Field string;
  set_lastSignedIn : Field Z;
  set_role : Field string;
}.

(** What is handed to drizzle:
    [insert(users).values(values).onDuplicateKeyUpdate({ set })]. *)
Record Statement := { values : InsertUser; set : UpdateSet }.

(** JavaScript truthiness of a date-valued property: a [Date] object is
    truthy, [undefined] and [null] are not. *)
Definition truthy_date (f : Field Z) : bool :=
  match f with
  | value _ => true
  | _ => false
  end.

(** [Object.keys(updateSet).length]. *)
Definition key_count (u : UpdateSet) : nat :=
  let present {A} (f : Field A) : nat :=
    match f with undefined => 0%nat | _ => 1%nat end in
  (present (set_name u) + present (set_email u) + present (set_loginMethod u)
   + present (set_lastSignedIn u) + present (set_role u))%nat.

(** The body of the [try]: [values] and [updateSet] as they are when the
    statement is issued. [ownerOpenId] is [ENV.ownerOpenId], [now] the
    time [new Date()] gives. *)
Definition build (ownerOpenId : string) (now : Z) (user : InsertUser)
  : Statement :=
  (* [assignNullable]: an absent field is skipped, the others are copied
     ([value ?? null] maps null to null). *)
  let assignNullable (f : Field string) : Field string :=
    match f with
    | undefined => undefined
    | null => null
    | value a => value a
    end in
  let role_ :=
    match role user with
    | undefined =>
        if bool_decide (openId user = ownerOpenId) then value "admin"
        else undefined
    | r => r
    end in
  let values_lastSignedIn :=
    if truthy_date (lastSignedIn user) then lastSignedIn user else value now in
  let updateSet :=
    {| set_name := assignNullable (name user);
       set_email := assignNullable (email user);
       set_loginMethod := assignNullable (loginMethod user);
       set_lastSignedIn := lastSignedIn user;
       set_role := role_ |} in
  let updateSet :=
    if Nat.eqb (key_count updateSet) 0
    then {| set_name := set_name updateSet;
            set_email := set_email updateSet;
            set_loginMethod := set_loginMethod updateSet;
            set_lastSignedIn := value now;
            set_role := set_role updateSet |}
    else updateSet in
  {| values :=
       {| openId := openId user;
          name := assignNullable (name user);
          email := assignNullable (email user);
          loginMethod := assignNullable (loginMethod user);
          lastSignedIn := values_lastSignedIn;
          role := role_ |};
     set := updateSet |}.

(** [upsertUser]: the statement it issues, [None] when it returns without
    issuing one; the effect of the statement on the table is outside the
    model. An empty [openId] is falsy. *)
Definition upsertUser (ownerOpenId : string) (now : Z) (st : Store)
  (user : InsertUser) : Result (option Statement) :=
  if bool_decide (openId user = EmptyString) then Thrown
  else
    match db.getDb st with
    | None => Ok None
    | Some h =>
        if online h then Ok (Some (build ownerOpenId now user)) else Thrown
    end.

End upsert.

(** * The sharing router *)
Module sharing.

Inductive TRPCErrorCode :=
| UNAUTHORIZED | NOT_FOUND | FORBIDDEN | INTERNAL_SERVER_ERROR.

(** A procedure resolves with a value or rejects with a [TRPCError]. *)
Inductive Outcome (A : Type) : Type :=
| resolved (a : A)
| rejected (code : TRPCErrorCode).
Arguments resolved {A} a.
Arguments rejected {A} code.

Inductive Role := editor | viewer.

Definition role_text (r : Role) : string :=
  match r with
  | editor => "editor"
  | viewer => "viewer"
  end.

Record ShareInput := {
  si_documentId : Z;
  si_userId : Z;
  si_role : Role;
}.

Record RevokeInput := {
  ri_documentId : Z;
  ri_userId : Z;
}.

Record Reply := { success : bool; message : string }.

Section WithToString.
(** The conversion of a number inside a template literal. *)
Variable Number_toString : Z -> string.

(** [ctx_user] is [ctx.user]. An error that is not a [TRPCError] is
    turned into [INTERNAL_SERVER_ERROR] by the [catch]. *)
Definition shareDocument (st : Store) (ctx_user : option User)
  (input : ShareInput) : Outcome Reply :=
  match ctx_user with
  | None => rejected UNAUTHORIZED
  | Some user =>
      match db.getDocument st (si_documentId input) with
      | Thrown => rejected INTERNAL_SERVER_ERROR
      | Ok None => rejected NOT_FOUND
      | Ok (Some doc) =>
          if bool_decide (doc_ownerId doc ≠ user_id user)
          then rejected FORBIDDEN
          else resolved
            {| success := true;
               message :=
                 String.append "Document shared with user "
                   (String.append (Number_toString (si_userId input))
                      (String.append " as " (role_text (si_role input)))) |}
      end
  end.

Definition revokeAccess (st : Store) (ctx_user : option User)
  (input : RevokeInput) : Outcome Reply :=
  match ctx_user with
  | None => rejected UNAUTHORIZED
  | Some user =>
      match db.getDocument st (ri_documentId input) with
      | Thrown => rejected INTERNAL_SERVER_ERROR
      | Ok None => rejected NOT_FOUND
      | Ok (Some doc) =>
          if bool_decide (doc_ownerId doc ≠ user_id user)
          then rejected FORBIDDEN
          else resolved
            {| success := true;
               message :=
                 String.append "Access revoked for user "
                   (Number_toString (ri_userId input)) |}
      end
  end.

End WithToString.

(** A listed share: the [documentId] and the [role] of a permission row
    (its [grantedAt] column is not part of the row model). *)
Definition getSharedDocuments (st : Store) (ctx_user : option User)
  : Outcome (list (Z * string)) :=
  match ctx_user with
  | None => rejected UNAUTHORIZED
  | Some _ =>
      match db_rest.getDocumentPermissions st 0 with
      | Thrown => rejected INTERNAL_SERVER_ERROR
      | Ok permissions =>
          resolved (map (fun p => (perm_documentId p, perm_role p))
                      permissions)
      end
  end.

End sharing.

(** * The client hook [useCollaborativeEditor] *)
Module useCollaborativeEditor.

(** A JavaScript string is the list of its UTF-16 code units. *)
Abbreviation code_units := (list Z).

(** The first half of a surrogate pair, U+D800 to U+DBFF. *)
Definition high_surrogate (c : Z) : bool :=
  Z.leb 55296 c && Z.leb c 56319.

(** [Y.Text] as the hook uses it: [toString()], [insert(index, text)] and
    [delete(index, length)]. What the two operations do to the content is
    the library's business; the statements about [updateContent] name
    what they rely on. *)
Class YText := {
  Text : Type;
  Y_toString : Text -> code_units;
  Y_insert : Text -> nat -> code_units -> Text;
  Y_delete : Text -> nat -> nat -> Text;
}.

Section Text.
Context `{YText}.

(** [updateContent] with the document and the socket in place
    ([ytextRef.current], [socketRef.current] and [ydocRef.current] are
    set): the shared text afterwards, and whether an [update] was
    emitted. *)
Definition updateContent (ytext : Text) (newContent : code_units)
  : Text * bool :=
  let currentContent := Y_toString ytext in
  if decide (currentContent = newContent) then (ytext, false)
  else
    let ytext' :=
      if (length currentContent <? length newContent)%nat
      then
        let diff := drop (length currentContent) newContent in
        Y_insert ytext (length currentContent) diff
      else if (length newContent <? length currentContent)%nat
      then Y_delete ytext (length newContent)
             (length currentContent - length newContent)
      else ytext in
    (ytext', true).

End Text.


Section Users.
(** The conversion of a number inside a template literal. *)
Variable Number_toString : Z -> string.


End Users.


End useCollaborativeEditor.

(** * What the statements about the client observe *)
Module client_properties.
Import websocket.

Section Text.
Import useCollaborativeEditor.
Context `{YText}.



End Text.
Section Rooms.
Context `{Yjs}.


End Rooms.
End client_properties.

(** * server/websocket.ts: the cursor handler *)
Module cursor.
Import websocket.

(** [updateSessionCursor] sets the cursor columns and [lastHeartbeat] of
    the session rows of a client id. These columns are not part of
    [SessionRow]: on the columns of the row model the statement changes
    nothing, and what is kept of it is whether it returns or throws. *)
Definition updateSessionCursor (st : Store) (clientId : string)
  (cursorPosition : Z) (selectionStart selectionEnd : option Z)
  : Result Store :=
  match db.getDb st with
  | None => Ok st
  | Some h => db.execute h (db.set_sessions (fun rows => rows))
  end.

Record CursorUpdateMessage := {
  cu_position : Z;
  cu_selection : option (Z * Z);
  cu_clientId : string;
}.

(** The ["cursor_update"] message the server emits. *)
Record CursorBroadcast := {
  cb_userId : Z;
  cb_clientId : string;
  cb_position : Z;
  cb_selection : option (Z * Z);
  cb_color : string;
  cb_name : string;
}.

Section WithYjs.
Context `{Yjs}.

(** The listener of ["cursor_update"]: the server afterwards and what is
    emitted. An error is caught and logged. *)
Definition on_cursor_update (sid : nat) (message : CursorUpdateMessage)
  (s : Server) : Server * list (Target * CursorBroadcast) :=
  match currentSession s !! sid with
  | None => (s, [])
  | Some cs =>
      match rooms s !! documentId cs with
      | None => (s, [])
      | Some room =>
          match updateSessionCursor (store s) (cu_clientId message)
                  (cu_position message)
                  (fst <$> cu_selection message)
                  (snd <$> cu_selection message) with
          | Thrown => (s, [])
          | Ok st' =>
              (set_store st' s,
               [ (socket_to sid (documentId cs),
                  {| cb_userId := userId cs;
                     cb_clientId := cu_clientId message;
                     cb_position := cu_position message;
                     cb_selection := cu_selection message;
                     cb_color := color cs;
                     cb_name := "User" |}) ])
          end
      end
  end.

End WithYjs.
End cursor.

(** * Further states for the worked scenarios *)
Module scenario_rest.
Import websocket scenario.

(** Two connections, sockets 7 and 8, have joined document 1 under the
    same client id ["x"]; socket 7 has then disconnected. *)
Definition after_twin_left : Server :=
  fst (run [ ev_join_room 7 (join 1 "x" alice_token) 1000000;
             ev_join_room 8 (join 1 "x" alice_token) 1000001;
             ev_disconnect 7 1000002 ] (init the_store)).

Definition twin_session : UserSession :=
  {| userId := 1; clientId := "x"; documentId := 1;
     color := "#4ECDC4"; lastHeartbeat := 1000001 |}.

(** [joined] once the row of document 1 has been deleted from the store. *)
Definition joined_document_deleted : Server :=
  set_store
    (Some {| online := true;
             tables :=
               {| schema.users := schema.users (tables joined_handle);
                  documents := [];
                  documentPermissions :=
                    documentPermissions (tables joined_handle);
                  operations := operations (tables joined_handle);
                  sessions := sessions (tables joined_handle);
                  offlineQueue := offlineQueue (tables joined_handle) |};
             accepts := fun _ _ => true |})
    joined.

(** The tables with operation rows of documents 1 and 2, stored out of
    version order. *)
Definition op_row (documentId version : Z) (data : bytes) : Operation :=
  {| op_documentId := documentId; op_clientId := "a1"; op_userId := 1;
     op_updateData := data; op_lamportTime := version + 1;
     op_vectorClock := ∅; op_version := version |}.

Definition logged_store : Store :=
  Some {| online := true;
          tables := db.set_operations (fun _ =>
            [ op_row 1 2 [x03]; op_row 2 1 [x02]; op_row 1 0 [x01] ])
            the_tables;
          accepts := fun _ _ => true |}.

(** The tables with queued entries of two clients for document 1, stored
    out of sequence order, and one entry for document 2. *)
Definition queue_row (clientId : string) (documentId sequenceNumber : Z)
  (data : bytes) : OfflineEntry :=
  {| oq_clientId := clientId; oq_documentId := documentId;
     oq_updateData := data; oq_sequenceNumber := sequenceNumber |}.

Definition mixed_queue_store : Store :=
  Some {| online := true;
          tables := db.set_offlineQueue (fun _ =>
            [ queue_row "c1" 1 2 [x02]; queue_row "c2" 1 1 [x01];
              queue_row "c1" 2 1 [x09] ])
            the_tables;
          accepts := fun _ _ => true |}.

(** The tables with two grants on document 0, of bob and of carol, next
    to bob's grant on document 2. *)
Definition shared_store : Store :=
  Some {| online := true;
          tables :=
            {| schema.users := schema.users the_tables;
               documents := documents the_tables;
               documentPermissions :=
                 [ {| perm_documentId := 0; perm_userId := 2;
                      perm_role := "viewer" |};
                   {| perm_documentId := 2; perm_userId := 2;
                      perm_role := "viewer" |};
                   {| perm_documentId := 0; perm_userId := 3;
                      perm_role := "editor" |} ];
               operations := []; sessions := []; offlineQueue := [] |};
          accepts := fun _ _ => true |}.


(** A shared text that was typed in one go: its content is one item, so a
    position inside the text is a position inside the item, where Yjs
    replaces the first half of a surrogate pair that a cut leaves
    behind by U+FFFD. *)
Definition cut_at (index : nat) (t : useCollaborativeEditor.code_units)
  : useCollaborativeEditor.code_units :=
  match last (take index t) with
  | Some c =>
      if useCollaborativeEditor.high_surrogate c
      then take (index - 1) t ++ [65533]
      else take index t
  | None => take index t
  end.

#[export] Instance one_item : useCollaborativeEditor.YText := {|
  useCollaborativeEditor.Text := useCollaborativeEditor.code_units;
  useCollaborativeEditor.Y_toString t := t;
  useCollaborativeEditor.Y_insert t index text :=
    take index t ++ text ++ drop index t;
  useCollaborativeEditor.Y_delete t index len :=
    cut_at index t ++ drop (index + len) t;
|}.

(** Two updates of alice in flight at once in [joined]: the listener is
    suspended on the first when the second arrives. *)
Definition first_begun : Result (option Suspended) * Server * list Effect :=
  on_update_begin 7 (upd "a1" [x01]) joined.

Definition second_begun : Result (option Suspended) * Server * list Effect :=
  on_update_begin 7 (upd "a1" [x02]) (snd (fst first_begun)).

Definition first_held : Suspended :=
  {| sus_sid := 7; sus_documentId := 1; sus_generation := 0;
     sus_update := [x01]; sus_clientId := "a1"; sus_inserted := true |}.

Definition second_held : Suspended :=
  {| sus_sid := 7; sus_documentId := 1; sus_generation := 0;
     sus_update := [x02]; sus_clientId := "a1"; sus_inserted := true |}.

Definition both_begun : Server := snd (fst second_begun).

(** Alice on socket 7 and bob on socket 8 are in the room of document 2,
    on which bob holds a grant. *)
Definition two_joined : Server :=
  fst (run [ ev_join_room 7 (join 2 "a1" alice_token) 1000000;
             ev_join_room 8 (join 2 "b1" bob_token) 1000001 ]
         (init the_store)).

Definition alice_in_two : UserSession :=
  {| userId := 1; clientId := "a1"; documentId := 2;
     color := "#FF6B6B"; lastHeartbeat := 1000000 |}.

Definition two_room : DocumentRoom :=
  {| doc := [];
     users :=
       [ ("a1", alice_in_two);
         ("b1", {| userId := 2; clientId := "b1"; documentId := 2;
                   color := "#4ECDC4"; lastHeartbeat := 1000001 |}) ];
     lamportTime := 0; vectorClocks := ∅; operationBuffer := [];
     lastSnapshot := {| version := 0; timestamp := 1000000 |} |}.

(** A sign-in that gives nothing but the [openId]. *)
Definition dave_sign_in : upsert.InsertUser :=
  {| upsert.openId := "dave"; upsert.name := upsert.undefined;
     upsert.email := upsert.undefined;
     upsert.loginMethod := upsert.undefined;
     upsert.lastSignedIn := upsert.undefined;
     upsert.role := upsert.undefined |}.

End scenario_rest.

Import scenario scenario_rest websocket observe properties
  client_properties.

(** Unfolds the handlers and the monad, and reduces the record
    projections, without touching the maps. *)
Ltac run_handler :=
  unfold on_update, on_update_begin, on_update_resume, on_join_room,
    on_disconnect, broadcastUpdate,
    persistSnapshot, getOrCreateRoom, put_room, socket_join,
    socket_leave_all, getNextColor,
    try_catch, bind, ret, throw, get_state, modify, tell, await, await_write,
    issue;
  cbn [store rooms dropped colorIndex currentSession channels
       set_store set_rooms set_dropped set_colorIndex set_currentSession
       set_channels
       doc users lamportTime vectorClocks operationBuffer lastSnapshot
       version timestamp fst snd app
       sus_sid sus_documentId sus_generation sus_update sus_clientId
       sus_inserted].


(** One case split per call or test of the handlers. *)
Ltac case_handler :=
  match goal with
  | |- context [match parseJWT ?t with _ => _ end] =>
      destruct (parseJWT t) eqn:?
  | |- context [match db.getUserByOpenId ?a ?b with _ => _ end] =>
      destruct (db.getUserByOpenId a b) as [[?|]|] eqn:?
  | |- context [match db.getDocument ?a ?b with _ => _ end] =>
      destruct (db.getDocument a b) as [[?|]|] eqn:?
  | |- context [match db.checkDocumentAccess ?a ?b ?c with _ => _ end] =>
      destruct (db.checkDocumentAccess a b c) as [[?|]|] eqn:?
  | |- context [match db.createSession ?a ?b ?c ?d ?e with _ => _ end] =>
      destruct (db.createSession a b c d e) eqn:?
  | |- context [match db.deleteSession ?a ?b with _ => _ end] =>
      destruct (db.deleteSession a b) eqn:?
  | |- context [match db.addOperation ?a ?b ?c ?d ?e ?f ?g ?i with _ => _ end] =>
      destruct (db.addOperation a b c d e f g i) eqn:?
  | |- context [match Y_applyUpdate ?a ?b with _ => _ end] =>
      destruct (Y_applyUpdate a b) as [[[]|] ?] eqn:?
  | |- context [if sus_inserted ?k then _ else _] =>
      destruct (sus_inserted k) eqn:?
  | |- context [match held_room ?a ?b with _ => _ end] =>
      destruct (held_room a b) eqn:?
  | |- context [match @lookup ?K ?A ?M ?L ?k ?m with _ => _ end] =>
      destruct (@lookup K A M L k m) eqn:?
  | |- context [match db.getDb ?a with _ => _ end] =>
      destruct (db.getDb a) eqn:?
  | |- context [if bool_decide ?P then _ else _] =>
      destruct (bool_decide P) eqn:?
  | |- context [if Nat.eqb ?a ?b then _ else _] =>
      destruct (Nat.eqb a b) eqn:?
  | |- context [if Nat.ltb ?a ?b then _ else _] =>
      destruct (Nat.ltb a b) eqn:?
  end; run_handler.

(** Splits the handlers of an event into their paths and normalises the
    registry lookups that they leave. *)
Ltac event_paths :=
  unfold step, handle; run_handler; repeat case_handler;
  cbn [fst rooms set_store set_rooms set_dropped set_channels
       set_currentSession set_colorIndex];
  simplify_eq;
  repeat match goal with
  | Hx : <[?k := _]> _ !! ?k = Some _ |- _ =>
      rewrite lookup_insert_eq in Hx; injection Hx as <-
  end.

(** * Properties of the data-access functions *)
Section DbFacts.
Import drizzle.

Lemma js_and_is_right {R : Type} (a b : SQL R) : js_and a b = b.
Proof. reflexivity. Qed.

Lemma insert_by_length {R : Type} (col : R -> Z) (x : R) (l : list R) :
  length (insert_by col x l) = S (length l).
Proof.
  induction l as [|y l IH]; simpl; [reflexivity|].
  destruct (Z.leb (col x) (col y)); simpl; [reflexivity|].
  now rewrite IH.
Qed.

Lemma orderBy_length {R : Type} (col : R -> Z) (rows : list R) :
  length (orderBy col rows) = length rows.
Proof.
  induction rows as [|x rows IH]; simpl; [reflexivity|].
  unfold orderBy in *. simpl. now rewrite insert_by_length, IH.
Qed.

(** What [checkDocumentAccess] computes on a live handle: the first grant
    of the user, on whatever document. *)
Lemma checkDocumentAccess_where (h : Handle) (documentId userId : Z) :
  online h = true ->
  db.checkDocumentAccess (Some h) documentId userId =
  Ok (head (List.filter (fun r => bool_decide (perm_userId r = userId))
              (documentPermissions (tables h)))).
Proof.
  intros Hon. unfold db.checkDocumentAccess, db.getDb, db.query.
  now rewrite Hon.
Qed.

(** Filtering what a filter has thrown away leaves nothing. *)
Lemma filter_excluded {R : Type} (p q : R -> bool) (l : list R) :
  (forall r, p r = true -> q r = true) ->
  List.filter p (List.filter (fun r => negb (q r)) l) = [].
Proof.
  intros Hpq. induction l as [|x l IH]; simpl; [reflexivity|].
  destruct (q x) eqn:Hq; simpl; [exact IH|].
  destruct (p x) eqn:Hp; [|exact IH].
  apply Hpq in Hp. congruence.
Qed.

Lemma filter_stronger_nil {R : Type} (p q : R -> bool) (l : list R) :
  (forall r, p r = true -> q r = true) ->
  List.filter q l = [] -> List.filter p l = [].
Proof.
  intros Hpq. induction l as [|x l IH]; simpl; [reflexivity|].
  destruct (q x) eqn:Hq; [discriminate|].
  intros Hl. destruct (p x) eqn:Hp; [|auto].
  apply Hpq in Hp. congruence.
Qed.

(** The writes of the handlers leave the [documents] table alone. *)
Lemma createSession_documents (st st' : Store) (d u : Z) (c col : string) :
  db.createSession st d u c col = Ok st' ->
  document_rows st' = document_rows st.
Proof.
  unfold db.createSession, db.getDb, db.insert.
  destruct st as [h|]; [|discriminate].
  destruct (online h && _); [|discriminate]. now intros [= <-].
Qed.

Lemma deleteSession_documents (st st' : Store) (c : string) :
  db.deleteSession st c = Ok st' ->
  document_rows st' = document_rows st.
Proof.
  unfold db.deleteSession, db.getDb, db.execute.
  destruct st as [h|]; [|now intros [= <-]].
  destruct (online h); [|discriminate]. now intros [= <-].
Qed.

Lemma addOperation_documents (st st' : Store) (d : Z) (c : string) (u : Z)
  (data : bytes) (l : Z) (vc : gmap string Z) (v : Z) :
  db.addOperation st d c u data l vc v = Ok st' ->
  document_rows st' = document_rows st.
Proof.
  unfold db.addOperation, db.getDb, db.insert.
  destruct st as [h|]; [|discriminate].
  destruct (online h && _); [|discriminate]. now intros [= <-].
Qed.

(** What an insert that is fulfilled leaves: the row is the last of its
    table, on a backend that answers. *)
Lemma insert_Ok (h : Handle) (row : Insert) (st' : Store) :
  db.insert h row = Ok st' ->
  online h = true
  /\ accepts h (tables h) row = true
  /\ st' = Some {| online := true; tables := db.add_row row (tables h);
                   accepts := accepts h |}.
Proof.
  unfold db.insert. destruct (online h); simpl; [|discriminate].
  destruct (accepts h (tables h) row); [|discriminate].
  intros [= <-]. auto.
Qed.

End DbFacts.

(** * Offline recovery *)
Section RecoveryFacts.
Context `{Yjs}.
Import OfflineRecoveryManager.

(** Every queued entry is counted once, as recovered or as a conflict. *)
Lemma apply_queued_counts (queuedOps : list OfflineEntry) :
  forall ydoc c ydoc' c',
    apply_queued queuedOps ydoc c = (ydoc', c') ->
    recovered c' + conflicts c' =
    recovered c + conflicts c + Z.of_nat (length queuedOps).
Proof.
  induction queuedOps as [|op rest IH]; intros ydoc c ydoc' c' Hrun.
  - simpl in Hrun. injection Hrun as <- <-. simpl. lia.
  - simpl in Hrun.
    destruct (Y_applyUpdate ydoc (oq_updateData op)) as [[[]|] y];
      apply IH in Hrun; simpl in Hrun; simpl length; lia.
Qed.

End RecoveryFacts.

(** * The members map *)
Section JSMapFacts.
Context {K V : Type} `{EqDecision K}.

Lemma get_keys (k : K) (v : V) (m : list (K * V)) :
  JSMap.get k m = Some v -> k ∈ JSMap.keys m.
Proof.
  induction m as [|[k' v'] m IH]; simpl; [discriminate|].
  destruct (decide (k' = k)) as [->|Hne].
  - intros _. apply list_elem_of_here.
  - intros Hget. apply list_elem_of_further. auto.
Qed.







End JSMapFacts.

(** * The join handler *)
Section JoinFacts.
Context `{Yjs}.

(** [parseJWT] yields no payload exactly when the token is missing, does
    not split into three parts, or has a middle part that does not parse. *)
Lemma parseJWT_None `{Json} (token : option string) :
  parseJWT token = None <->
  token = None \/
  exists t, token = Some t /\
    (length (split_dot t) <> 3%nat \/
     JSON_parse_base64 (nth 1 (split_dot t) EmptyString) = None).
Proof.
  unfold parseJWT. destruct token as [t|].
  - destruct (Nat.eqb (length (split_dot t)) 3) eqn:Hlen; simpl.
    + apply Nat.eqb_eq in Hlen. split.
      * intros Hp. right. exists t. auto.
      * intros [Hn | (t' & [= <-] & [Hl | Hp])]; congruence.
    + apply Nat.eqb_neq in Hlen. split; [|reflexivity].
      intros _. right. exists t. auto.
  - split; auto.
Qed.

(** The handler reads nothing of the payload but [openId]: two decoders
    that agree on it give the same join, whatever [exp] they report. *)
Lemma join_room_ignores_exp (J1 J2 : Json) :
  (forall seg,
     openId <$> @JSON_parse_base64 J1 seg
     = openId <$> @JSON_parse_base64 J2 seg) ->
  forall sid message now s,
    @on_join_room _ J1 sid message now s = @on_join_room _ J2 sid message now s.
Proof.
  intros Hagree sid message now s.
  unfold on_join_room, parseJWT.
  destruct (jr_token message) as [t|]; [|reflexivity].
  destruct (negb _); [reflexivity|].
  specialize (Hagree (nth 1 (split_dot t) EmptyString)).
  destruct (@JSON_parse_base64 J1 _) as [p1|],
           (@JSON_parse_base64 J2 _) as [p2|];
    simpl in Hagree; try discriminate; [|reflexivity].
  injection Hagree as Hagree. now rewrite Hagree.
Qed.

End JoinFacts.

(** * The update handler *)
Section UpdateFacts.
Context `{Yjs}.

Lemma addOperation_inserts (st : Store) (row : Operation) :
  db.addOperation st (op_documentId row) (op_clientId row) (op_userId row)
    (op_updateData row) (op_lamportTime row) (op_vectorClock row)
    (op_version row) =
  if inserts st (into_operations row)
  then Ok (inserted st (into_operations row)) else Thrown.
Proof.
  unfold db.addOperation, db.getDb, db.insert, inserts, inserted.
  destruct st as [h|]; [|reflexivity]. destruct row. reflexivity.
Qed.

(** The first half on an update that Yjs merges: the clocks are
    advanced, the row is handed to the store and the listener is
    suspended; nothing is emitted and the buffer is as it was. *)
Lemma on_update_begin_merged (s : Server) (sid : nat)
  (message : UpdateMessage) (cs : UserSession) (room : DocumentRoom)
  (ydoc : YDoc) :
  currentSession s !! sid = Some cs ->
  rooms s !! documentId cs = Some room ->
  Y_applyUpdate (doc room) (um_update message) = (Ok tt, ydoc) ->
  let row := into_operations (operation_row cs message room ydoc) in
  let merged :=
    set_rooms
      (<[documentId cs := after_merge room ydoc (um_clientId message)]>
         (rooms s)) s in
  on_update_begin sid message s =
  (Ok (Some (suspended_on s sid cs message (inserts (store s) row))),
   (if inserts (store s) row
    then set_store (inserted (store s) row) merged else merged),
   []).
Proof.
  intros Hcs Hroom Hy row merged.
  run_handler. rewrite Hcs, Hroom, Hy. run_handler.
  pose proof (addOperation_inserts (store s)
                (operation_row cs message room ydoc)) as Hadd.
  unfold operation_row, after_merge in Hadd.
  cbn [op_documentId op_clientId op_userId op_updateData op_lamportTime
       op_vectorClock op_version vectorClocks] in Hadd.
  rewrite Hadd. subst row merged. unfold operation_row, after_merge.
  cbn [vectorClocks]. destruct (inserts (store s) _); reflexivity.
Qed.

(** The first half on an update at which [Y.applyUpdate] throws: the
    catch answers at once, the room has the document the call left and
    nothing else has changed. *)
Lemma on_update_begin_thrown (s : Server) (sid : nat)
  (message : UpdateMessage) (cs : UserSession) (room : DocumentRoom)
  (ydoc : YDoc) :
  currentSession s !! sid = Some cs ->
  rooms s !! documentId cs = Some room ->
  Y_applyUpdate (doc room) (um_update message) = (Thrown, ydoc) ->
  on_update_begin sid message s =
  (Ok None,
   set_rooms (<[documentId cs := with_doc room ydoc]> (rooms s)) s,
   [emit (to_socket sid) (error UPDATE_FAILED)]).
Proof.
  intros Hcs Hroom Hy. run_handler. rewrite Hcs, Hroom, Hy. reflexivity.
Qed.

(** The second half after a rejected insert: the catch answers and
    nothing changes, whatever has happened in between. *)
Lemma on_update_resume_rejected (s : Server) (k : Suspended) (now : Z) :
  sus_inserted k = false ->
  on_update_resume k now s =
  (Ok tt, s, [emit (to_socket (sus_sid k)) (error UPDATE_FAILED)]).
Proof. intros Hk. run_handler. rewrite Hk. reflexivity. Qed.

(** The second half after a fulfilled insert: the message goes to the
    channel of the document of the session as it is now, with the lamport
    time of the room the listener holds, and the update is buffered in
    the room that is registered now. *)
Lemma on_update_resume_broadcast (s : Server) (k : Suspended) (now : Z)
  (cs : UserSession) (held room : DocumentRoom) :
  sus_inserted k = true ->
  currentSession s !! sus_sid k = Some cs ->
  held_room s k = Some held ->
  rooms s !! documentId cs = Some room ->
  on_update_resume k now s =
  (Ok tt,
   set_rooms
     (<[documentId cs :=
          after_broadcast room (sus_update k) (sus_clientId k) now]>
        (rooms s)) s,
   emit (io_to (documentId cs))
     (update (sus_update k) (sus_clientId k) (lamportTime held) now)
   :: checkpoint_log s (documentId cs) room).
Proof.
  intros Hk Hcs Hheld Hroom.
  run_handler. rewrite Hk, Hcs, Hheld. run_handler. rewrite Hroom.
  run_handler. unfold after_broadcast, checkpoint_log.
  cbn [doc users lamportTime vectorClocks operationBuffer lastSnapshot].
  rewrite length_app. cbn [length].
  destruct (100 <? _)%nat; run_handler; [|reflexivity].
  destruct (db.getDb (store s)); run_handler; rewrite insert_insert_eq;
    reflexivity.
Qed.

End UpdateFacts.

(** * What no event does *)
Section StepFacts.
Context `{Yjs} `{Json}.

(** No handler writes to the [documents] table: [snapshotState] and
    [snapshotVersion] stay as they were, checkpoint or not. *)
Lemma step_documents (ev : Event) (s : Server) :
  document_rows (store (fst (step ev s))) = document_rows (store s).
Proof.
  destruct ev; unfold step, handle; run_handler; repeat case_handler.
  all: cbn [fst store set_store set_rooms set_channels set_currentSession
            set_colorIndex].
  all: eauto using createSession_documents, deleteSession_documents,
         addOperation_documents.
Qed.

Lemma run_documents (evs : list Event) (s : Server) :
  document_rows (store (fst (run evs s))) = document_rows (store s).
Proof.
  revert s. induction evs as [|ev evs IH]; intros s; [reflexivity|].
  simpl. pose proof (step_documents ev s) as Hstep.
  destruct (step ev s) as [s1 out1]. specialize (IH s1).
  destruct (run evs s1) as [s2 out2]. simpl in *. congruence.
Qed.

(** Building a room reads the [documents] table only: whatever the
    [operations] table holds, the room is the same. *)
Lemma getOrCreateRoom_ignores_operations (documentId now : Z) (s : Server)
  (h : Handle) (f : list Operation -> list Operation) :
  store s = Some h ->
  fst (fst (getOrCreateRoom documentId now
              (set_store (Some {| online := online h;
                                  tables := db.set_operations f (tables h);
                                  accepts := accepts h |})
                 s)))
  = fst (fst (getOrCreateRoom documentId now s)).
Proof.
  intros Hst. run_handler.
  destruct (rooms s !! documentId); [reflexivity|].
  run_handler. rewrite Hst.
  unfold db.getDocument, db.getDb, db.query. cbn [online tables].
  destruct (online h); [|reflexivity].
  cbn [documents db.set_operations].
  destruct (drizzle.first_row _) as [doc_|]; reflexivity.
Qed.




End StepFacts.

(** * The claims *)

(** C1 (the code departs from the claim): bob holds a grant on document 2
    only. Asked about the pair (document 1, bob), [checkDocumentAccess]
    returns the row of document 2, and bob's [join_room] for document 1,
    which alice owns, is answered with [room_joined] instead of
    [ACCESS_DENIED]. *)
Theorem C1_access_check_ignores_document :
  db.checkDocumentAccess the_store 1 2 =
    Ok (Some {| perm_documentId := 2; perm_userId := 2;
                perm_role := "viewer" |})
  /\ snd (step (ev_join_room 7 (join 1 "b1" bob_token) 1000000)
            (init the_store)) =
     [ emit (to_socket 7)
         (room_joined 1 "b1"
            [ {| ru_clientId := "b1"; ru_userId := 2;
                 ru_color := "#FF6B6B" |} ] [] 0);
       emit (socket_to 7 1) (user_joined 2 "b1" "Bob" "#FF6B6B") ].
Proof. split; vm_compute; reflexivity. Qed.

(** C2 (amended): a [join_room] whose token is missing, does not consist
    of three dot-separated parts, or whose middle part does not parse is
    answered with [AUTH_FAILED] on that socket and changes nothing: no
    session, no room, no [room_joined], and the connection is not closed. *)
Theorem C2_unreadable_token_rejected `{Yjs} `{Json} (s : Server) (sid : nat)
  (message : JoinRoomMessage) (now : Z) :
  (jr_token message = None \/
   exists t, jr_token message = Some t /\
     (length (split_dot t) <> 3%nat \/
      JSON_parse_base64 (nth 1 (split_dot t) EmptyString) = None)) ->
  on_join_room sid message now s =
  (Ok tt, s, [emit (to_socket sid) (error AUTH_FAILED)]).
Proof.
  intros Hbad. apply parseJWT_None in Hbad.
  unfold on_join_room, try_catch. rewrite Hbad. reflexivity.
Qed.

(** C2 at a token of a single part. *)
Lemma C2_unreadable_token_rejected_witness :
  on_join_room 7 (join 1 "a1" "not-a-token") 1000000 (init the_store) =
  (Ok tt, init the_store, [emit (to_socket 7) (error AUTH_FAILED)]).
Proof.
  apply C2_unreadable_token_rejected.
  right. exists "not-a-token". split; [reflexivity|].
  left. vm_compute. discriminate.
Defined.

(** C2 (as stated, refuted): alice's token carries [exp] = 1 second,
    long before the join at 1000000 ms. The token is accepted: no
    [AUTH_FAILED] is emitted, [room_joined] is, and she has a session. *)
Lemma C2_expired_token_admitted :
  parseJWT (Some alice_token) = Some {| openId := "alice"; exp := 1 |}
  /\ 1 * 1000 < 1000000
  /\ snd (step alice_joins (init the_store)) =
       [ emit (to_socket 7)
           (room_joined 1 "a1"
              [ {| ru_clientId := "a1"; ru_userId := 1;
                   ru_color := "#FF6B6B" |} ] [] 0);
         emit (socket_to 7 1) (user_joined 1 "a1" "Alice" "#FF6B6B") ]
  /\ (emit (to_socket 7) (error AUTH_FAILED)
        ∉ snd (step alice_joins (init the_store)))
  /\ currentSession (fst (step alice_joins (init the_store))) !! 7%nat
       = Some alice_session.
Proof.
  assert (Hout : snd (step alice_joins (init the_store)) =
       [ emit (to_socket 7)
           (room_joined 1 "a1"
              [ {| ru_clientId := "a1"; ru_userId := 1;
                   ru_color := "#FF6B6B" |} ] [] 0);
         emit (socket_to 7 1) (user_joined 1 "a1" "Alice" "#FF6B6B") ])
    by (vm_compute; reflexivity).
  split; [vm_compute; reflexivity|].
  split; [reflexivity|].
  split; [exact Hout|].
  split; [|vm_compute; reflexivity].
  rewrite Hout. intros Hin.
  apply elem_of_cons in Hin as [Hin|Hin]; [discriminate Hin|].
  apply list_elem_of_singleton in Hin. discriminate Hin.
Qed.

(** C3 (the code departs from the claim): alice joins document 1 and
    sends two updates, which are persisted with versions 0 and 1; she
    leaves, the room is dropped, and she joins again. The room is rebuilt
    from the snapshot alone: its document is empty although
    [getOperationsSince] has a row to replay, and the state sent in
    [room_joined] is empty. *)
Theorem C3_rebuilt_room_replays_nothing :
  let s1 := fst (run [ alice_joins;
                       ev_update 7 (upd "a1" [x01]) 1000001;
                       ev_update 7 (upd "a1" [x02]) 1000002 ]
                   (init the_store)) in
  let s2 := fst (run [ ev_disconnect 7 1000003 ] s1) in
  let s3 := fst (run [ ev_join_room 8 (join 1 "a2" alice_token) 1000004 ]
                   s2) in
  doc <$> rooms s1 !! 1 = Some [x01; x02]
  /\ rooms s2 !! 1 = None
  /\ persisted_versions (store s2) 1 = [0; 1]
  /\ (match db.getOperationsSince (store s2) 1 0 with
      | Ok rows => map op_updateData rows
      | Thrown => []
      end) = [[x02]]
  /\ doc <$> rooms s3 !! 1 = Some []
  /\ snd (run [ ev_join_room 8 (join 1 "a2" alice_token) 1000004 ] s2) =
     [ emit (to_socket 8)
         (room_joined 1 "a2"
            [ {| ru_clientId := "a2"; ru_userId := 1;
                 ru_color := "#4ECDC4" |} ] [] 0);
       emit (socket_to 8 1) (user_joined 1 "a2" "Alice" "#4ECDC4") ].
Proof. repeat split; vm_compute; reflexivity. Qed.

(** C4 (the code departs from the claim): both triggers run the
    checkpoint, which logs "Snapshot persisted", empties the buffer and
    bumps the version kept in memory, and the [documents] table keeps its
    [snapshotState] and [snapshotVersion]: when the last member leaves,
    and when the buffer passes 100 entries. *)
Theorem C4_checkpoint_writes_no_snapshot :
  (let '(s, out) := run [ alice_joins;
                          ev_update 7 (upd "a1" [x01]) 1000001;
                          ev_disconnect 7 1000002 ] (init the_store) in
   last out = Some (log_snapshot_persisted 1)
   /\ rooms s !! 1 = None
   /\ document_rows (store s) = documents the_tables)
  /\
  (let '(s, out) := run (alice_joins :: burst 101 1000001)
                      (init the_store) in
   last out = Some (log_snapshot_persisted 1)
   /\ operationBuffer <$> rooms s !! 1 = Some []
   /\ lastSnapshot <$> rooms s !! 1
      = Some {| version := 1; timestamp := 1000101 |}
   /\ document_rows (store s) = documents the_tables).
Proof.
  split.
  - pose proof (run_documents [ alice_joins;
                                ev_update 7 (upd "a1" [x01]) 1000001;
                                ev_disconnect 7 1000002 ] (init the_store))
      as Hdocs.
    destruct (run _ _) as [s out] eqn:Hrun.
    split; [|split; [|exact Hdocs]].
    + change out with (snd (s, out)). rewrite <- Hrun.
      vm_compute. reflexivity.
    + change s with (fst (s, out)). rewrite <- Hrun.
      vm_compute. reflexivity.
  - pose proof (run_documents (alice_joins :: burst 101 1000001)
                  (init the_store)) as Hdocs.
    destruct (run _ _) as [s out] eqn:Hrun.
    split; [|split; [|split; [|exact Hdocs]]].
    + change out with (snd (s, out)). rewrite <- Hrun.
      vm_compute. reflexivity.
    + change s with (fst (s, out)). rewrite <- Hrun.
      vm_compute. reflexivity.
    + change s with (fst (s, out)). rewrite <- Hrun.
      vm_compute. reflexivity.
Qed.

(** C5 (amended): an update that Yjs merges and whose insert the store
    accepts is persisted as one operation row, the last of the table,
    that carries the document and the user of the session, the client id
    and the bytes of the message, the lamport time and the vector clock
    of the room after their increment, and as version
    [lastSnapshot.version] plus the length of [operationBuffer] as they
    are when the insert is issued, which is before the update is
    appended: the listener is suspended with the buffer unchanged. The
    update is appended when the listener resumes; this raises the version
    the room hands out next by one, unless the buffer then passes 100
    entries and the checkpoint sets it to [lastSnapshot.version + 1]. *)
Theorem C5_version_of_accepted_update `{Yjs} `{Json} (s : Server) (sid : nat)
  (message : UpdateMessage) (cs : UserSession) (room : DocumentRoom)
  (ydoc : YDoc) :
  currentSession s !! sid = Some cs ->
  rooms s !! documentId cs = Some room ->
  Y_applyUpdate (doc room) (um_update message) = (Ok tt, ydoc) ->
  let row :=
    {| op_documentId := documentId cs;
       op_clientId := um_clientId message;
       op_userId := userId cs;
       op_updateData := um_update message;
       op_lamportTime := lamportTime room + 1;
       op_vectorClock :=
         <[um_clientId message :=
             default 0 (vectorClocks room !! um_clientId message) + 1]>
           (vectorClocks room);
       op_version :=
         version (lastSnapshot room)
         + Z.of_nat (length (operationBuffer room)) |} in
  inserts (store s) (into_operations row) = true ->
  let k := suspended_on s sid cs message true in
  let s1 :=
    set_store (inserted (store s) (into_operations row))
      (set_rooms
         (<[documentId cs := after_merge room ydoc (um_clientId message)]>
            (rooms s)) s) in
  on_update_begin sid message s = (Ok (Some k), s1, [])
  /\ operation_rows (store s1) = operation_rows (store s) ++ [row]
  /\ rooms s1 !! documentId cs
     = Some (after_merge room ydoc (um_clientId message))
  /\ next_version (after_merge room ydoc (um_clientId message))
     = next_version room
  /\ forall (s2 : Server) (now : Z) (cs2 : UserSession)
       (held room2 : DocumentRoom),
       currentSession s2 !! sid = Some cs2 ->
       held_room s2 k = Some held ->
       rooms s2 !! documentId cs2 = Some room2 ->
       next_version
         <$> rooms (fst (step (ev_update_resume k now) s2)) !! documentId cs2
       = Some (if (100 <? length (operationBuffer room2) + 1)%nat
               then version (lastSnapshot room2) + 1
               else next_version room2 + 1).
Proof.
  intros Hcs Hroom Hy row Hins k s1. subst s1.
  change row with (operation_row cs message room ydoc) in *.
  rewrite (on_update_begin_merged s sid message cs room ydoc) by assumption.
  rewrite Hins.
  split; [reflexivity|]. split.
  { unfold operation_rows, inserted, inserts in *. cbn [store set_store].
    destruct (store s) as [h|]; [reflexivity|discriminate Hins]. }
  split.
  { cbn [rooms set_store set_rooms]. apply lookup_insert_eq. }
  split; [reflexivity|].
  intros s2 now cs2 held room2 Hcs2 Hheld Hroom2. unfold step, handle.
  rewrite (on_update_resume_broadcast s2 k now cs2 held room2)
    by (reflexivity || assumption).
  cbn [fst rooms set_rooms]. rewrite lookup_insert_eq.
  cbn [fmap option_fmap option_map].
  f_equal. unfold next_version, after_broadcast.
  cbn [operationBuffer lastSnapshot version]. rewrite length_app. cbn [length].
  destruct (100 <? _)%nat; cbn [length version];
    rewrite ?length_app; cbn [length]; lia.
Qed.

(** C5 at alice's first update in [joined]: the row carries version 0,
    and the resumed listener raises the next version to 1. *)
Lemma C5_version_of_accepted_update_witness :
  let row :=
    {| op_documentId := 1; op_clientId := "a1"; op_userId := 1;
       op_updateData := [x01]; op_lamportTime := 1;
       op_vectorClock := {[ "a1" := 1 ]}; op_version := 0 |} in
  let k := first_held in
  let s1 := snd (fst first_begun) in
  on_update_begin 7 (upd "a1" [x01]) joined = (Ok (Some k), s1, [])
  /\ operation_rows (store s1) = operation_rows (store joined) ++ [row]
  /\ rooms s1 !! documentId alice_session
     = Some (after_merge joined_room [x01] "a1")
  /\ next_version (after_merge joined_room [x01] "a1")
     = next_version joined_room
  /\ forall (s2 : Server) (now : Z) (cs2 : UserSession)
       (held room2 : DocumentRoom),
       currentSession s2 !! 7%nat = Some cs2 ->
       held_room s2 k = Some held ->
       rooms s2 !! documentId cs2 = Some room2 ->
       next_version
         <$> rooms (fst (step (ev_update_resume k now) s2)) !! documentId cs2
       = Some (if (100 <? length (operationBuffer room2) + 1)%nat
               then version (lastSnapshot room2) + 1
               else next_version room2 + 1).
Proof.
  apply (C5_version_of_accepted_update joined 7 (upd "a1" [x01])
           alice_session joined_room [x01]);
    vm_compute; reflexivity.
Defined.

(** C5 (as stated, refuted): after alice's first update the buffer holds
    one entry and the snapshot version is 0, so the claimed version is 1;
    the row carries 0. She leaves, joins again and sends a second update:
    it is persisted with version 0 as well. And when her second update
    arrives while the listener is still suspended on the first, both rows
    are inserted with version 0. The versions of document 1 are not
    strictly increasing and (document, version) is not unique. *)
Lemma C5_versions_repeat :
  let s2 := fst (run [ alice_joins; ev_update 7 (upd "a1" [x01]) 1000001 ]
                   (init the_store)) in
  let s5 := fst (run [ ev_disconnect 7 1000002;
                       ev_join_room 8 (join 1 "a2" alice_token) 1000003;
                       ev_update 8 (upd "a2" [x02]) 1000004 ] s2) in
  persisted_versions (store s2) 1 = [0]
  /\ next_version <$> rooms s2 !! 1 = Some 1
  /\ persisted_versions (store s5) 1 = [0; 0]
  /\ ~ NoDup (persisted_versions (store s5) 1)
  /\ fst (fst first_begun) = Ok (Some first_held)
  /\ fst (fst second_begun) = Ok (Some second_held)
  /\ persisted_versions (store both_begun) 1 = [0; 0].
Proof.
  assert (Hv : persisted_versions (store (fst (run
      [ ev_disconnect 7 1000002;
        ev_join_room 8 (join 1 "a2" alice_token) 1000003;
        ev_update 8 (upd "a2" [x02]) 1000004 ]
      (fst (run [ alice_joins; ev_update 7 (upd "a1" [x01]) 1000001 ]
              (init the_store)))))) 1 = [0; 0])
    by (vm_compute; reflexivity).
  cbv zeta. rewrite Hv.
  split; [vm_compute; reflexivity|].
  split; [vm_compute; reflexivity|].
  split; [reflexivity|].
  split.
  - intros Hnd. apply NoDup_cons in Hnd as [Hnotin _].
    apply Hnotin. apply list_elem_of_here.
  - repeat split; vm_compute; reflexivity.
Qed.

(** C6 (the code departs from the claim): carol, who neither owns
    document 1 nor holds a grant, asks to join it on a fresh server. She
    is refused with [ACCESS_DENIED] and has no session, and yet a room
    for document 1, without a member, is left in the registry. *)
Theorem C6_denied_join_leaves_room :
  let '(s, out) := step (ev_join_room 7 (join 1 "c1" carol_token) 1000000)
                     (init the_store) in
  out = [emit (to_socket 7) (error ACCESS_DENIED)]
  /\ currentSession s = ∅
  /\ users <$> rooms s !! 1 = Some []
  /\ rooms (init the_store) !! 1 = None.
Proof. repeat split; vm_compute; reflexivity. Qed.

(** C7 (amended): an update of a joined socket that is rejected, because
    [Y.applyUpdate] throws on its bytes or because the insert of the
    operation row is rejected, is answered with [UPDATE_FAILED] on the
    sender's socket and nothing else is emitted; the store, the sessions,
    the channels, the other rooms and the room's members, buffer and
    snapshot marker are untouched. Nothing is rolled back. When
    [Y.applyUpdate] throws, the catch answers at once, the lamport time
    and the vector clock are untouched and the room keeps the document as
    the call left it. When the insert is rejected after the merge, the
    room keeps the merged document, the incremented lamport time and the
    incremented vector clock, and the answer is sent when the listener
    resumes, whatever has happened in between. *)
Theorem C7_rejected_update `{Yjs} `{Json} (s : Server) (sid : nat)
  (message : UpdateMessage) (now : Z) (cs : UserSession)
  (room : DocumentRoom) (applied : Result unit) (ydoc : YDoc) :
  currentSession s !! sid = Some cs ->
  rooms s !! documentId cs = Some room ->
  Y_applyUpdate (doc room) (um_update message) = (applied, ydoc) ->
  applied = Thrown
    \/ inserts (store s)
         (into_operations (operation_row cs message room ydoc)) = false ->
  let left :=
    match applied with
    | Thrown => with_doc room ydoc
    | Ok _ => after_merge room ydoc (um_clientId message)
    end in
  let s' := set_rooms (<[documentId cs := left]> (rooms s)) s in
  let failed := emit (to_socket sid) (error UPDATE_FAILED) in
  step (ev_update sid message now) s = (s', [failed])
  /\ users left = users room
  /\ operationBuffer left = operationBuffer room
  /\ lastSnapshot left = lastSnapshot room
  /\ doc left = ydoc
  /\ match applied with
     | Thrown =>
         lamportTime left = lamportTime room
         /\ vectorClocks left = vectorClocks room
         /\ on_update_begin sid message s = (Ok None, s', [failed])
     | Ok _ =>
         let k := suspended_on s sid cs message false in
         on_update_begin sid message s = (Ok (Some k), s', [])
         /\ forall (s2 : Server) (now2 : Z),
              step (ev_update_resume k now2) s2 = (s2, [failed])
     end.
Proof.
  intros Hcs Hroom Hy Hrej left s' failed. subst left s' failed.
  destruct applied as [[]|].
  - destruct Hrej as [Hrej|Hrej]; [discriminate|].
    pose proof (on_update_begin_merged s sid message cs room ydoc
                  Hcs Hroom Hy) as Hbegin.
    cbv zeta in Hbegin. rewrite Hrej in Hbegin.
    split.
    { unfold step, handle, on_update, bind. rewrite Hbegin.
      rewrite on_update_resume_rejected by reflexivity. reflexivity. }
    repeat (split; [reflexivity|]).
    split; [exact Hbegin|].
    intros s2 now2. unfold step, handle.
    rewrite on_update_resume_rejected by reflexivity. reflexivity.
  - pose proof (on_update_begin_thrown s sid message cs room ydoc
                  Hcs Hroom Hy) as Hbegin.
    split.
    { unfold step, handle, on_update, bind. rewrite Hbegin. reflexivity. }
    repeat (split; [reflexivity|]). exact Hbegin.
Qed.

(** C7 at alice's update in [joined_backend_down]: the insert is
    rejected. *)
Lemma C7_rejected_update_witness :
  let left := after_merge joined_room [x01] "a1" in
  let s' := set_rooms (<[1 := left]> (rooms joined_backend_down))
              joined_backend_down in
  let failed := emit (to_socket 7) (error UPDATE_FAILED) in
  step (ev_update 7 (upd "a1" [x01]) 1000001) joined_backend_down
    = (s', [failed])
  /\ users left = users joined_room
  /\ operationBuffer left = operationBuffer joined_room
  /\ lastSnapshot left = lastSnapshot joined_room
  /\ doc left = [x01]
  /\ (let k := suspended_on joined_backend_down 7 alice_session
                 (upd "a1" [x01]) false in
      on_update_begin 7 (upd "a1" [x01]) joined_backend_down
        = (Ok (Some k), s', [])
      /\ forall (s2 : Server) (now2 : Z),
           step (ev_update_resume k now2) s2 = (s2, [failed])).
Proof.
  apply (C7_rejected_update joined_backend_down 7 (upd "a1" [x01]) 1000001
           alice_session joined_room (Ok tt) [x01]).
  - vm_compute. reflexivity.
  - vm_compute. reflexivity.
  - vm_compute. reflexivity.
  - right. vm_compute. reflexivity.
Defined.

(** C7 (as stated, refuted): in [joined_backend_down] alice's update is
    merged, the insert throws and [UPDATE_FAILED] is emitted; the room's
    document, lamport time and vector clock have changed all the same. *)
Lemma C7_failed_insert_keeps_merge :
  let '(s', out) :=
    step (ev_update 7 (upd "a1" [x01]) 1000001) joined_backend_down in
  out = [emit (to_socket 7) (error UPDATE_FAILED)]
  /\ doc <$> rooms joined_backend_down !! 1 = Some []
  /\ doc <$> rooms s' !! 1 = Some [x01]
  /\ lamportTime <$> rooms joined_backend_down !! 1 = Some 0
  /\ lamportTime <$> rooms s' !! 1 = Some 1
  /\ rooms joined_backend_down !! 1 ≫= (fun r => vectorClocks r !! "a1")
     = None
  /\ rooms s' !! 1 ≫= (fun r => vectorClocks r !! "a1") = Some 1.
Proof. repeat split; vm_compute; reflexivity. Qed.




(** C9 (the code departs from the claim): the listener hands an accepted
    update to [broadcastUpdate] under the comment "Broadcast to other
    clients", and [broadcastUpdate] emits it with [io.to], which
    addresses the whole channel. Once the insert is fulfilled and the
    listener resumes, the one message that is emitted, [update] with the
    bytes and the client id of the message, goes to every socket of the
    channel of the document, and the socket the update came from is one
    of them whenever it is in that channel. The lamport time it carries
    is read from the room when the listener resumes. *)
Theorem C9_update_reaches_origin `{Yjs} `{Json} (s : Server) (sid : nat)
  (message : UpdateMessage) (cs : UserSession) (room : DocumentRoom)
  (ydoc : YDoc) (s2 : Server) (now : Z) (cs2 : UserSession)
  (held room2 : DocumentRoom) :
  currentSession s !! sid = Some cs ->
  rooms s !! documentId cs = Some room ->
  Y_applyUpdate (doc room) (um_update message) = (Ok tt, ydoc) ->
  inserts (store s) (into_operations (operation_row cs message room ydoc))
    = true ->
  let k := suspended_on s sid cs message true in
  currentSession s2 !! sid = Some cs2 ->
  held_room s2 k = Some held ->
  rooms s2 !! documentId cs2 = Some room2 ->
  sid ∈ channel s2 (documentId cs2) ->
  fst (fst (on_update_begin sid message s)) = Ok (Some k)
  /\ snd (on_update_begin sid message s) = []
  /\ snd (step (ev_update_resume k now) s2) =
     emit (io_to (documentId cs2))
       (update (um_update message) (um_clientId message)
          (lamportTime held) now)
     :: checkpoint_log s2 (documentId cs2) room2
  /\ receivers s2 (io_to (documentId cs2)) = channel s2 (documentId cs2)
  /\ sid ∈ receivers s2 (io_to (documentId cs2)).
Proof.
  intros Hcs Hroom Hy Hins k Hcs2 Hheld Hroom2 Hin.
  rewrite (on_update_begin_merged s sid message cs room ydoc) by assumption.
  rewrite Hins. cbn [fst snd].
  split; [reflexivity|]. split; [reflexivity|]. split.
  - unfold step, handle.
    rewrite (on_update_resume_broadcast s2 k now cs2 held room2)
      by (reflexivity || assumption).
    reflexivity.
  - split; [reflexivity|exact Hin].
Qed.

(** C9 in [two_joined]: alice, on socket 7, and bob, on socket 8, are in
    the channel of document 2. Alice's update is emitted to that channel
    and reaches sockets 7 and 8: alice receives her own update back. *)
Lemma C9_update_reaches_origin_witness :
  let message := upd "a1" [x01] in
  let k := {| sus_sid := 7; sus_documentId := 2; sus_generation := 0;
              sus_update := [x01]; sus_clientId := "a1";
              sus_inserted := true |} in
  let s2 := snd (fst (on_update_begin 7 message two_joined)) in
  (fst (fst (on_update_begin 7 message two_joined)) = Ok (Some k)
   /\ snd (on_update_begin 7 message two_joined) = []
   /\ snd (step (ev_update_resume k 1000002) s2) =
      [ emit (io_to 2) (update [x01] "a1" 1 1000002) ]
   /\ receivers s2 (io_to 2) = channel s2 2
   /\ 7%nat ∈ receivers s2 (io_to 2))
  /\ elements (receivers s2 (io_to 2)) = [8%nat; 7%nat]
  /\ snd (step (ev_update 7 message 1000002) two_joined) =
     [ emit (io_to 2) (update [x01] "a1" 1 1000002) ].
Proof.
  split; [|split; vm_compute; reflexivity].
  apply (C9_update_reaches_origin two_joined 7 (upd "a1" [x01])
           alice_in_two two_room [x01]
           (snd (fst (on_update_begin 7 (upd "a1" [x01]) two_joined)))
           1000002 alice_in_two
           (after_merge two_room [x01] "a1")
           (after_merge two_room [x01] "a1")).
  all: vm_compute; reflexivity.
Defined.

(** C10: when [recoverOfflineOperations] returns (no storage error), no
    entry of the offline queue for (clientId, documentId) is left in the
    store, whether it was applied or counted as a conflict, and
    recovered + conflicts is the number of entries [getOfflineQueue]
    fetched. *)
Theorem C10_recovery_clears_queue `{Yjs} (st : Store) (clientId : string)
  (documentId : Z) (ydoc : YDoc) (counts : OfflineRecoveryManager.Counts)
  (st' : Store) (ydoc' : YDoc) :
  OfflineRecoveryManager.recoverOfflineOperations st clientId documentId ydoc
    = (Ok counts, st', ydoc') ->
  offline_queue_for st' clientId documentId = []
  /\ forall fetched,
       db.getOfflineQueue st clientId documentId = Ok fetched ->
       OfflineRecoveryManager.recovered counts
       + OfflineRecoveryManager.conflicts counts
       = Z.of_nat (length fetched).
Proof.
  unfold OfflineRecoveryManager.recoverOfflineOperations.
  unfold db.getOfflineQueue, db.clearOfflineQueue, db.getDb.
  destruct st as [h|].
  - unfold db.query, db.execute. destruct (online h) eqn:Hon; [|discriminate].
    rewrite js_and_is_right.
    set (fetched := drizzle.orderBy _ _).
    case_bool_decide as Hlen.
    + intros [= <- <- <-]. split.
      * simpl. unfold fetched in Hlen.
        rewrite orderBy_length in Hlen.
        apply length_zero_iff_nil in Hlen. unfold drizzle.where_ in Hlen.
        eapply filter_stronger_nil; [|exact Hlen].
        intros r Hr. simpl. apply andb_prop in Hr. tauto.
      * intros ? [= <-]. rewrite Hlen. reflexivity.
    + destruct (OfflineRecoveryManager.apply_queued _ _ _) as [y c] eqn:Hrun.
      intros [= <- <- <-]. split.
      * simpl. apply filter_excluded.
        intros r Hr. simpl. apply andb_prop in Hr. tauto.
      * intros ? [= <-]. apply apply_queued_counts in Hrun.
        simpl in Hrun. lia.
  - simpl. intros [= <- <- <-]. split; [reflexivity|].
    intros ? [= <-]. reflexivity.
Qed.

(** C10 at [queued_store]: three entries are fetched for client ["c1"]
    and document 1, two are recovered, one is a conflict, none is left. *)
Lemma C10_recovery_clears_queue_witness :
  offline_queue_for
    (snd (fst (OfflineRecoveryManager.recoverOfflineOperations
                 queued_store "c1" 1 [])))
    "c1" 1 = []
  /\ forall fetched,
       db.getOfflineQueue queued_store "c1" 1 = Ok fetched ->
       2 + 1 = Z.of_nat (length fetched).
Proof.
  exact (C10_recovery_clears_queue queued_store "c1" 1 []
           {| OfflineRecoveryManager.recovered := 2;
              OfflineRecoveryManager.conflicts := 1 |}
           _ _ eq_refl).
Defined.
(** * Tokens *)
Section TokenFacts.
Context `{Json}.

Lemma split_dot_length (t : string) : length (split_dot t) = S (dots t).
Proof.
  induction t as [|c t IH]; [reflexivity|].
  simpl. destruct (Ascii.eqb c "."); simpl; [now rewrite IH|].
  destruct (split_dot t); simpl in *; [discriminate|exact IH].
Qed.

Lemma split_dot_plain (a : string) : dots a = 0%nat -> split_dot a = [a].
Proof.
  induction a as [|c a IH]; [reflexivity|].
  simpl. destruct (Ascii.eqb c "."); simpl; [discriminate|].
  intros Ha. now rewrite IH.
Qed.

Lemma split_dot_append (a b : string) :
  dots a = 0%nat ->
  split_dot (String.append a (String "." b)) = a :: split_dot b.
Proof.
  induction a as [|c a IH]; [reflexivity|].
  simpl. destruct (Ascii.eqb c ".") eqn:Hc; simpl; [discriminate|].
  intros Ha. now rewrite IH.
Qed.

(** X1: a token [parseJWT] reads has exactly two dots: anything else is
    refused before its content is looked at. *)
Theorem X_parseJWT_two_dots (t : string) (p : JwtPayload) :
  parseJWT (Some t) = Some p -> dots t = 2%nat.
Proof.
  unfold parseJWT. destruct (Nat.eqb _ 3) eqn:Hlen; simpl; [|discriminate].
  intros _. apply Nat.eqb_eq in Hlen. rewrite split_dot_length in Hlen. lia.
Qed.

(** X2: of a token [header.payload.signature], [parseJWT] returns what the
    decoding of the middle part gives; the header and the signature are
    never looked at. *)
Theorem X_parseJWT_reads_middle_only (header payload signature : string) :
  dots header = 0%nat -> dots payload = 0%nat -> dots signature = 0%nat ->
  parseJWT (Some (String.append header (String "."
              (String.append payload (String "." signature)))))
  = JSON_parse_base64 payload.
Proof.
  intros Hh Hp Hs. unfold parseJWT.
  rewrite split_dot_append by assumption.
  rewrite split_dot_append by assumption.
  rewrite split_dot_plain by assumption. reflexivity.
Qed.
End TokenFacts.

(** Alice's token. *)
Lemma X_parseJWT_two_dots_witness : dots alice_token = 2%nat.
Proof.
  apply (X_parseJWT_two_dots alice_token {| openId := "alice"; exp := 1 |}).
  vm_compute. reflexivity.
Defined.

(** Alice's payload between a header and a signature of any kind. *)
Lemma X_parseJWT_reads_middle_only_witness :
  parseJWT (Some (String.append "forged" (String "."
     (String.append "eyJvcGVuSWQiOiJhbGljZSIsImV4cCI6MX0=" (String "." "unsigned")))))
  = JSON_parse_base64 "eyJvcGVuSWQiOiJhbGljZSIsImV4cCI6MX0=".
Proof.
  apply X_parseJWT_reads_middle_only; vm_compute; reflexivity.
Defined.

(** * Invariants of the rooms *)
Section RoomInvariants.
Context `{Yjs} `{Json}.

Lemma vector_total_insert (vc : gmap string Z) (k : string) (x : Z) :
  vector_total (<[k := x]> vc) = vector_total vc - default 0 (vc !! k) + x.
Proof.
  unfold vector_total.
  assert (Hcomm : forall (m : gmap string Z) (j1 j2 : string) (z1 z2 y : Z),
    j1 <> j2 -> m !! j1 = Some z1 -> m !! j2 = Some z2 ->
    z1 + (z2 + y) = z2 + (z1 + y)) by (intros; lia).
  destruct (vc !! k) as [v|] eqn:Hk; simpl.
  - rewrite <- insert_delete_eq.
    rewrite map_fold_insert_L; [|apply Hcomm|apply lookup_delete_eq].
    rewrite (map_fold_delete_L _ _ k v vc); [lia|apply Hcomm|exact Hk].
  - rewrite map_fold_insert_L; [lia|apply Hcomm|exact Hk].
Qed.

Lemma step_clocks_wf (ev : Event) (s : Server) :
  clocks_wf s -> clocks_wf (fst (step ev s)).
Proof.
  intros Hwf d r. destruct ev; event_paths.
  all: try (exact (Hwf d r)).
  all: repeat (rewrite lookup_insert || rewrite lookup_delete);
    repeat case_decide; subst;
    try (intros [= <-]; cbn [lamportTime vectorClocks]);
    try discriminate; eauto.
  all: rewrite vector_total_insert; erewrite (Hwf _ _) by eassumption; lia.
Qed.

Lemma step_buffers_wf (ev : Event) (s : Server) :
  buffers_wf s -> buffers_wf (fst (step ev s)).
Proof.
  intros Hwf d r. destruct ev; event_paths.
  all: try (exact (Hwf d r)).
  all: repeat (rewrite lookup_insert || rewrite lookup_delete);
    repeat case_decide; subst;
    try (intros [= <-]; cbn [operationBuffer]);
    try discriminate; eauto.
  all: try (simpl; lia).
  all: try match goal with
       | Hlt : (100 <? _)%nat = false |- _ =>
           apply Nat.ltb_ge in Hlt; exact Hlt
       end.
Qed.

Lemma run_invariant (P : Server -> Prop) :
  (forall ev s, P s -> P (fst (step ev s))) ->
  forall evs s, P s -> P (fst (run evs s)).
Proof.
  intros Hstep evs. induction evs as [|ev evs IH]; intros s Hs; [exact Hs|].
  simpl. apply (Hstep ev) in Hs.
  destruct (step ev s) as [s1 out1]. specialize (IH s1 Hs).
  now destruct (run evs s1) as [s2 out2].
Qed.

(** X3: in every state reached from a fresh server, the lamport time of a
    room is the sum of the entries of its vector clock. *)
Theorem X_lamport_is_clock_total (evs : list Event) (st : Store) (d : Z)
  (r : DocumentRoom) :
  rooms (fst (run evs (init st))) !! d = Some r ->
  lamportTime r = vector_total (vectorClocks r).
Proof.
  revert d r. change (clocks_wf (fst (run evs (init st)))).
  apply run_invariant; [apply step_clocks_wf|].
  intros d r Hr. simpl in Hr. now rewrite lookup_empty in Hr.
Qed.

(** X4: in every state reached from a fresh server, no room buffers more
    than 100 operations. *)
Theorem X_buffer_bounded (evs : list Event) (st : Store) (d : Z)
  (r : DocumentRoom) :
  rooms (fst (run evs (init st))) !! d = Some r ->
  (length (operationBuffer r) <= 100)%nat.
Proof.
  revert d r. change (buffers_wf (fst (run evs (init st)))).
  apply run_invariant; [apply step_buffers_wf|].
  intros d r Hr. simpl in Hr. now rewrite lookup_empty in Hr.
Qed.

(** X5: an event never lowers the lamport time of a room that stays
    registered. *)
Theorem X_lamport_monotone (ev : Event) (s : Server) (d : Z)
  (r r' : DocumentRoom) :
  rooms s !! d = Some r ->
  rooms (fst (step ev s)) !! d = Some r' ->
  lamportTime r <= lamportTime r'.
Proof.
  intros Hr. destruct ev; event_paths.
  all: try (rewrite Hr; intros [= <-]; lia).
  all: repeat (rewrite lookup_insert || rewrite lookup_delete);
    repeat case_decide; subst;
    try (intros [= <-]; cbn [lamportTime]);
    try discriminate;
    try (rewrite Hr; intros [= <-]; lia).
  all: try congruence.
  all: match goal with
       | Hx : rooms _ !! ?k = Some ?a, Hy : rooms _ !! ?k = Some ?b |- _ =>
           rewrite Hx in Hy; injection Hy as <-
       end; lia.
Qed.

(** X6: an event changes no room but the one of its document. *)
Theorem X_other_rooms_untouched (ev : Event) (s : Server) (d : Z) :
  event_document s ev <> Some d ->
  rooms (fst (step ev s)) !! d = rooms s !! d.
Proof.
  unfold event_document. destruct ev; event_paths.
  all: try reflexivity.
  all: intros Hd.
  all: repeat (rewrite lookup_insert || rewrite lookup_delete);
    repeat case_decide; subst; try reflexivity.
  all: try (exfalso; apply Hd; reflexivity).
  all: try (simpl in Hd; congruence).
Qed.

End RoomInvariants.

(** After alice's join and two updates, the second sent under another
    client id, the room has lamport time 2 and two clock entries of 1. *)
Lemma X_lamport_is_clock_total_witness :
  exists r,
    rooms (fst (run [ alice_joins;
                      ev_update 7 (upd "a1" [x01]) 1000001;
                      ev_update 7 (upd "zz" [x02]) 1000002 ]
                 (init the_store))) !! 1 = Some r
    /\ lamportTime r = 2
    /\ lamportTime r = vector_total (vectorClocks r).
Proof.
  eexists. split; [vm_compute; reflexivity|]. split; [reflexivity|].
  apply (X_lamport_is_clock_total
           [ alice_joins;
             ev_update 7 (upd "a1" [x01]) 1000001;
             ev_update 7 (upd "zz" [x02]) 1000002 ] the_store 1).
  vm_compute. reflexivity.
Defined.

(** After alice's join and 101 updates the buffer is empty again. *)
Lemma X_buffer_bounded_witness :
  exists r,
    rooms (fst (run (alice_joins :: burst 101 1000001) (init the_store))) !! 1
      = Some r
    /\ (length (operationBuffer r) <= 100)%nat.
Proof.
  eexists. split; [vm_compute; reflexivity|].
  apply (X_buffer_bounded (alice_joins :: burst 101 1000001) the_store 1).
  vm_compute. reflexivity.
Defined.

(** Alice's update in [joined] takes the lamport time from 0 to 1. *)
Lemma X_lamport_monotone_witness :
  exists r',
    rooms (fst (step (ev_update 7 (upd "a1" [x01]) 1000001) joined)) !! 1
      = Some r'
    /\ lamportTime joined_room <= lamportTime r'.
Proof.
  eexists. split; [vm_compute; reflexivity|].
  apply (X_lamport_monotone (ev_update 7 (upd "a1" [x01]) 1000001) joined 1);
    vm_compute; reflexivity.
Defined.

(** Alice is in the room of document 1 and bob in the room of document
    2; alice's update leaves the room of document 2 as it is. *)
Lemma X_other_rooms_untouched_witness :
  is_Some (rooms (fst (step (ev_join_room 8 (join 2 "b1" bob_token) 1000000)
                         joined)) !! 2)
  /\ rooms (fst (step (ev_update 7 (upd "a1" [x01]) 1000001)
                 (fst (step (ev_join_room 8 (join 2 "b1" bob_token) 1000000)
                         joined)))) !! 2
     = rooms (fst (step (ev_join_room 8 (join 2 "b1" bob_token) 1000000)
                     joined)) !! 2.
Proof.
  split; [eexists; vm_compute; reflexivity|].
  apply X_other_rooms_untouched. vm_compute. discriminate.
Defined.

(** * Suspended listeners *)
Section SuspendedFacts.
Context `{Yjs} `{Json}.

Lemma holds_held_room (s : Server) (k : Suspended) :
  holds s k -> is_Some (held_room s k).
Proof.
  unfold holds, held_room. intros [Hlt|[Heq Hreg]].
  - apply lookup_lt_is_Some in Hlt. destruct Hlt as [r ->]. eauto.
  - destruct (dropped_rooms s (sus_documentId k) !! sus_generation k); eauto.
Qed.

(** No event takes the session of a socket away. *)
Lemma step_keeps_session (ev : Event) (s : Server) (sid : nat) :
  is_Some (currentSession s !! sid) ->
  is_Some (currentSession (fst (step ev s)) !! sid).
Proof.
  intros Hcs. destruct ev; event_paths; try exact Hcs.
  all: cbn [currentSession set_store set_rooms set_dropped set_channels
            set_currentSession set_colorIndex];
    try exact Hcs.
  all: rewrite lookup_insert; destruct (decide (_ = sid));
    [eexists; reflexivity|exact Hcs].
Qed.

(** No event takes the room of a suspended listener away: a room that
    leaves the registry is kept among the dropped ones. *)
Lemma step_holds (ev : Event) (s : Server) (k : Suspended) :
  holds s k -> holds (fst (step ev s)) k.
Proof.
  unfold holds, dropped_rooms. intros Hk.
  destruct ev; event_paths; try exact Hk.
  all: unfold dropped_rooms;
    cbn [rooms dropped set_store set_rooms set_dropped set_channels
         set_currentSession set_colorIndex];
    try exact Hk.
  all: repeat (rewrite lookup_insert || rewrite lookup_delete);
    repeat match goal with
    | |- context [decide (?a = ?b)] => destruct (decide (a = b))
    end; subst; cbn [default from_option id];
    rewrite ?length_app; cbn [length].
  all: try match goal with
       | Heq : _ = sus_documentId _ |- _ => rewrite Heq in *
       end.
  all: try assumption.
  all: match goal with
       | Hx : _ \/ _ |- _ => destruct Hx as [Hlt|[Heq Hreg]]
       end;
    first [left; lia
          |left; assumption
          |right; split; [assumption|eexists; reflexivity]
          |right; split; assumption].
Qed.

(** A listener that was suspended has a session and holds a room
    whenever it resumes: the case that [on_update_resume] leaves open does
    not arise in a run. *)
Lemma suspended_listener_resumes (s : Server) (sid : nat)
  (message : UpdateMessage) (k : Suspended) (evs : list Event) :
  fst (fst (on_update_begin sid message s)) = Ok (Some k) ->
  let s2 := fst (run evs (snd (fst (on_update_begin sid message s)))) in
  sus_sid k = sid
  /\ is_Some (currentSession s2 !! sid)
  /\ is_Some (held_room s2 k).
Proof.
  intros Hbegin s2.
  assert (Hstart : sus_sid k = sid
    /\ is_Some (currentSession (snd (fst (on_update_begin sid message s)))
                 !! sid)
    /\ holds (snd (fst (on_update_begin sid message s))) k).
  { revert Hbegin. run_handler.
    destruct (currentSession s !! sid) as [cs|] eqn:Hcs; run_handler;
      [|discriminate].
    destruct (rooms s !! documentId cs) as [room|] eqn:Hroom; run_handler;
      [|discriminate].
    destruct (Y_applyUpdate (doc room) (um_update message)) as [[[]|] ydoc];
      run_handler; [|discriminate].
    destruct (db.addOperation _ _ _ _ _ _ _ _); run_handler.
    all: intros [= <-]; split; [reflexivity|]; split; [rewrite Hcs; eauto|].
    all: right; split; [reflexivity|].
    all: cbn [sus_documentId rooms set_store set_rooms];
      rewrite lookup_insert_eq; eauto. }
  destruct Hstart as (Hsid & Hcs & Hholds). split; [exact Hsid|].
  subst s2. split.
  - apply (run_invariant (fun s => is_Some (currentSession s !! sid)));
      [intros ev s0; apply step_keeps_session|exact Hcs].
  - apply holds_held_room.
    apply (run_invariant (fun s => holds s k));
      [intros ev s0; apply step_holds|exact Hholds].
Qed.

End SuspendedFacts.

(** Alice's second update arrives in [joined] while the listener is
    suspended on her first: both rows are inserted with version 0, the
    lamport time of the room is 2 by then, and both broadcasts carry 2. *)
Lemma two_updates_in_flight :
  fst (fst first_begun) = Ok (Some first_held)
  /\ fst (fst second_begun) = Ok (Some second_held)
  /\ persisted_versions (store both_begun) 1 = [0; 0]
  /\ lamportTime <$> rooms both_begun !! 1 = Some 2
  /\ snd (step (ev_update_resume first_held 1000003) both_begun)
     = [emit (io_to 1) (update [x01] "a1" 2 1000003)]
  /\ snd (step (ev_update_resume second_held 1000004)
            (fst (step (ev_update_resume first_held 1000003) both_begun)))
     = [emit (io_to 1) (update [x02] "a1" 2 1000004)].
Proof. repeat split; vm_compute; reflexivity. Qed.

(** Alice's update is in flight in [joined] when she disconnects, which
    drops the room, and joins again on socket 8, which builds a new room.
    When the listener of socket 7 resumes, the message goes to the channel
    of document 1 with the lamport time of the room it holds, which is 1,
    and the update is buffered in the new room, whose lamport time is 0. *)
Lemma update_resumes_after_room_was_rebuilt :
  let rebuilt :=
    fst (run [ ev_disconnect 7 1000002;
               ev_join_room 8 (join 1 "a2" alice_token) 1000003 ]
           (snd (fst first_begun))) in
  lamportTime <$> held_room rebuilt first_held = Some 1
  /\ lamportTime <$> rooms rebuilt !! 1 = Some 0
  /\ snd (step (ev_update_resume first_held 1000004) rebuilt)
     = [emit (io_to 1) (update [x01] "a1" 1 1000004)]
  /\ (length <$> (operationBuffer
         <$> rooms (fst (step (ev_update_resume first_held 1000004) rebuilt))
               !! 1)) = Some 1%nat
  /\ elements (receivers rebuilt (io_to 1)) = [8%nat].
Proof. repeat split; vm_compute; reflexivity. Qed.

(** * The handlers, path by path *)
Section HandlerFacts.
Context `{Yjs} `{Json}.


(** A user the store returns comes from a live handle. *)
Lemma getUserByOpenId_live (st : Store) (openId : string) (user : User) :
  db.getUserByOpenId st openId = Ok (Some user) ->
  exists h, st = Some h /\ online h = true.
Proof.
  unfold db.getUserByOpenId, db.getDb, db.query.
  destruct st as [h|]; [|discriminate].
  destruct (online h) eqn:Hon; [|discriminate]. eauto.
Qed.

(** X7: an update from a socket that has a session but whose room is no
    longer registered is dropped without a trace: no error, nothing is
    stored, nothing is broadcast. *)
Theorem X_update_without_room_is_dropped (s : Server) (sid : nat)
  (message : UpdateMessage) (now : Z) (cs : UserSession) :
  currentSession s !! sid = Some cs ->
  rooms s !! documentId cs = None ->
  step (ev_update sid message now) s = (s, []).
Proof.
  intros Hcs Hroom. unfold step, handle. run_handler.
  rewrite Hcs, Hroom. reflexivity.
Qed.

(** X8: the disconnect of a socket with a session in a registered room
    removes the entry of the session's client id from the members, sends
    one [user_left] to the other sockets of the channel, and drops the room
    from the registry exactly when no member is left. *)
Theorem X_disconnect_evicts_and_drops (s : Server) (sid : nat) (now : Z)
  (cs : UserSession) (room : DocumentRoom) :
  currentSession s !! sid = Some cs ->
  rooms s !! documentId cs = Some room ->
  let '(s', out) := step (ev_disconnect sid now) s in
  let members := JSMap.delete (clientId cs) (users room) in
  (exists logs,
     out = emit (socket_to sid (documentId cs))
             (user_left (clientId cs) (userId cs)) :: logs
     /\ forall e, e ∈ logs -> e = log_snapshot_persisted (documentId cs))
  /\ rooms s' !! documentId cs =
     (if Nat.eqb (length members) 0 then None
      else Some {| doc := doc room; users := members;
                   lamportTime := lamportTime room;
                   vectorClocks := vectorClocks room;
                   operationBuffer := operationBuffer room;
                   lastSnapshot := lastSnapshot room |})
  /\ (forall u, JSMap.get (clientId cs) members <> Some u).
Proof.
  intros Hcs Hroom. unfold step, handle. run_handler.
  rewrite Hcs, Hroom. run_handler. unfold JSMap.size.
  assert (Hgone : forall u,
    JSMap.get (clientId cs) (JSMap.delete (clientId cs) (users room))
    <> Some u).
  { intros u Hget. apply get_keys in Hget.
    unfold JSMap.keys, JSMap.delete in Hget.
    apply list_elem_of_fmap in Hget as ([k v] & -> & Hin).
    apply list_elem_of_In, filter_In in Hin as [_ Hneq].
    simpl in Hneq. apply negb_true_iff, bool_decide_eq_false in Hneq.
    now apply Hneq. }
  destruct (Nat.eqb _ 0) eqn:Hempty; run_handler.
  - destruct (db.getDb (store s)); run_handler;
      destruct (db.deleteSession _ _); run_handler.
    all: repeat split; auto;
      try (eexists; split; [reflexivity|]; intros e He;
           try (apply list_elem_of_singleton in He; exact He);
           inversion He);
      try (rewrite lookup_delete_eq; reflexivity);
      try apply lookup_delete_eq.
  - destruct (db.deleteSession _ _); run_handler.
    all: repeat split; auto;
      try (eexists; split; [reflexivity|]; intros e He; inversion He);
      try apply lookup_insert_eq; try apply lookup_delete_eq.
Qed.

End HandlerFacts.

Section JoinPaths.
Context `{Yjs} `{Json}.

Lemma createSession_inserts (st : Store) (row : SessionRow) :
  db.createSession st (sess_documentId row) (sess_userId row)
    (sess_clientId row) (sess_userColor row) =
  if inserts st (into_sessions row)
  then Ok (inserted st (into_sessions row)) else Thrown.
Proof.
  unfold db.createSession, db.getDb, db.insert, inserts, inserted.
  destruct st as [h|]; [|reflexivity]. destruct row. reflexivity.
Qed.


(** X10: when the room is registered and the row of the document is gone
    from the store, the access check is skipped: any known user with a
    readable token is admitted, provided the insert of the session row is
    fulfilled. *)
Theorem X_missing_document_skips_access_check (s : Server) (sid : nat)
  (message : JoinRoomMessage) (now : Z) (payload : JwtPayload) (user : User)
  (room : DocumentRoom) :
  parseJWT (jr_token message) = Some payload ->
  db.getUserByOpenId (store s) (openId payload) = Ok (Some user) ->
  rooms s !! jr_documentId message = Some room ->
  db.getDocument (store s) (jr_documentId message) = Ok None ->
  let color := nth (colorIndex s mod length COLORS)%nat COLORS EmptyString in
  inserts (store s)
    (into_sessions
       {| sess_documentId := jr_documentId message;
          sess_userId := user_id user;
          sess_clientId := jr_clientId message;
          sess_userColor := color |}) = true ->
  exists us ds lt,
    snd (step (ev_join_room sid message now) s) =
    [ emit (to_socket sid)
        (room_joined (jr_documentId message) (jr_clientId message) us ds lt);
      emit (socket_to sid (jr_documentId message))
        (user_joined (user_id user) (jr_clientId message) (user_name user)
           color) ].
Proof.
  intros Hjwt Huser Hroom Hdoc color Hins. subst color.
  pose proof (createSession_inserts (store s)
    {| sess_documentId := jr_documentId message;
       sess_userId := user_id user;
       sess_clientId := jr_clientId message;
       sess_userColor :=
         nth (colorIndex s mod length COLORS)%nat COLORS EmptyString |})
    as Hcreate.
  cbn [sess_documentId sess_userId sess_clientId sess_userColor] in Hcreate.
  rewrite Hins in Hcreate.
  unfold step, handle. run_handler. rewrite Hjwt. run_handler.
  rewrite Huser. run_handler. rewrite Hroom. run_handler.
  rewrite Hdoc. run_handler. rewrite Hcreate.
  run_handler. eexists _, _, _. reflexivity.
Qed.

(** X11: a join refused with [AUTH_FAILED], [USER_NOT_FOUND] or [NOT_FOUND]
    leaves the whole server state as it was. *)
Theorem X_refused_join_changes_nothing (s : Server) (sid : nat)
  (message : JoinRoomMessage) (now : Z) (s' : Server) (out : list Effect)
  (code : ErrorCode) :
  step (ev_join_room sid message now) s = (s', out) ->
  out = [emit (to_socket sid) (error code)] ->
  code = AUTH_FAILED \/ code = USER_NOT_FOUND \/ code = NOT_FOUND ->
  s' = s.
Proof.
  intros Hstep Hout Hcode. revert Hstep.
  unfold step, handle; run_handler; repeat case_handler.
  all: intros [= <- <-]; try reflexivity; try discriminate Hout.
  all: injection Hout as <-; destruct Hcode as [Hc|[Hc|Hc]]; discriminate Hc.
Qed.



End JoinPaths.

(** In [after_twin_left] socket 8 still has its session and the room of
    document 1 is gone. *)
Lemma X_update_without_room_is_dropped_witness :
  step (ev_update 8 (upd "x" [x01]) 1000003) after_twin_left
  = (after_twin_left, []).
Proof.
  apply (X_update_without_room_is_dropped after_twin_left 8 (upd "x" [x01])
           1000003 twin_session); vm_compute; reflexivity.
Defined.

(** Alice, the only member, disconnects in [joined]. *)
Lemma X_disconnect_evicts_and_drops_witness :
  let '(s', out) := step (ev_disconnect 7 1000002) joined in
  let members := JSMap.delete (clientId alice_session) (users joined_room) in
  (exists logs,
     out = emit (socket_to 7 (documentId alice_session))
             (user_left (clientId alice_session) (userId alice_session))
           :: logs
     /\ forall e, e ∈ logs ->
          e = log_snapshot_persisted (documentId alice_session))
  /\ rooms s' !! documentId alice_session =
     (if Nat.eqb (length members) 0 then None
      else Some {| doc := doc joined_room; users := members;
                   lamportTime := lamportTime joined_room;
                   vectorClocks := vectorClocks joined_room;
                   operationBuffer := operationBuffer joined_room;
                   lastSnapshot := lastSnapshot joined_room |})
  /\ (forall u, JSMap.get (clientId alice_session) members <> Some u).
Proof.
  apply (X_disconnect_evicts_and_drops joined 7 1000002 alice_session
           joined_room); vm_compute; reflexivity.
Defined.


(** Carol holds no grant; the row of document 1 is gone and its room is
    still registered: she is admitted. *)
Lemma X_missing_document_skips_access_check_witness :
  exists us ds lt,
    snd (step (ev_join_room 9 (join 1 "c1" carol_token) 1000009)
           joined_document_deleted) =
    [ emit (to_socket 9) (room_joined 1 "c1" us ds lt);
      emit (socket_to 9 1) (user_joined 3 "c1" "Carol" "#4ECDC4") ].
Proof.
  apply (X_missing_document_skips_access_check joined_document_deleted 9
           (join 1 "c1" carol_token) 1000009
           {| openId := "carol"; exp := 4102444800 |}
           {| user_id := 3; user_openId := "carol"; user_name := "Carol" |}
           joined_room);
    vm_compute; reflexivity.
Defined.

(** Alice asks for document 99, which does not exist. *)
Lemma X_refused_join_changes_nothing_witness :
  fst (step (ev_join_room 7 (join 99 "a1" alice_token) 1000000)
         (init the_store)) = init the_store.
Proof.
  apply (X_refused_join_changes_nothing (init the_store) 7
           (join 99 "a1" alice_token) 1000000 _
           (snd (step (ev_join_room 7 (join 99 "a1" alice_token) 1000000)
                   (init the_store)))
           NOT_FOUND).
  - apply surjective_pairing.
  - vm_compute. reflexivity.
  - right. right. reflexivity.
Defined.


(** * Ordering and the queries that sort *)
Section OrderFacts.
Import drizzle.
Context {R : Type} (col : R -> Z).

Lemma insert_by_perm (x : R) (l : list R) : insert_by col x l ≡ₚ x :: l.
Proof.
  induction l as [|y l IH]; simpl; [reflexivity|].
  destruct (Z.leb (col x) (col y)); [reflexivity|].
  rewrite IH. apply Permutation_swap.
Qed.

Lemma orderBy_perm (rows : list R) : orderBy col rows ≡ₚ rows.
Proof.
  induction rows as [|x rows IH]; [reflexivity|].
  unfold orderBy in *. simpl. rewrite insert_by_perm. now rewrite IH.
Qed.

Lemma insert_by_sorted (x : R) (l : list R) :
  StronglySorted (fun a b => col a <= col b) l ->
  StronglySorted (fun a b => col a <= col b) (insert_by col x l).
Proof.
  induction l as [|y l IH]; simpl; intros Hs.
  - repeat constructor.
  - apply StronglySorted_cons in Hs as [Hy Hs].
    destruct (Z.leb_spec (col x) (col y)) as [Hle|Hgt].
    + apply StronglySorted_cons. split.
      * constructor; [exact Hle|].
        eapply Forall_impl; [exact Hy|]. simpl. intros z Hz. lia.
      * apply StronglySorted_cons. auto.
    + apply StronglySorted_cons. split; [|auto].
      rewrite insert_by_perm. constructor; [lia|exact Hy].
Qed.

Lemma orderBy_sorted (rows : list R) :
  StronglySorted (fun a b => col a <= col b) (orderBy col rows).
Proof.
  induction rows as [|x rows IH]; [constructor|].
  unfold orderBy in *. simpl. now apply insert_by_sorted.
Qed.

End OrderFacts.

Section QueryFacts.

(** X13: what [getOperationsSince] returns is sorted by ascending version
    and is, up to order, every operation row whose version is above the
    given one, of whatever document. *)
Theorem X_getOperationsSince_all_documents (st : Store) (documentId v : Z)
  (rows : list Operation) :
  db.getOperationsSince st documentId v = Ok rows ->
  StronglySorted (fun a b => op_version a <= op_version b) rows
  /\ rows ≡ₚ List.filter (fun r => bool_decide (v < op_version r))
              (operation_rows st).
Proof.
  unfold db.getOperationsSince, db.getDb, db.query, operation_rows.
  destruct st as [h|]; [|intros [= <-]; split; [constructor|reflexivity]].
  destruct (online h); [|discriminate]. intros [= <-].
  rewrite js_and_is_right. split; [apply orderBy_sorted|].
  apply orderBy_perm.
Qed.

Lemma getOfflineQueue_sorted_perm (st : Store) (clientId : string)
  (documentId : Z) (rows : list OfflineEntry) :
  db.getOfflineQueue st clientId documentId = Ok rows ->
  StronglySorted (fun a b => oq_sequenceNumber a <= oq_sequenceNumber b) rows
  /\ rows ≡ₚ List.filter (fun r => bool_decide (oq_documentId r = documentId))
              (offline_rows st).
Proof.
  unfold db.getOfflineQueue, db.getDb, db.query, offline_rows.
  destruct st as [h|]; [|intros [= <-]; split; [constructor|reflexivity]].
  destruct (online h); [|discriminate]. intros [= <-].
  rewrite js_and_is_right. split; [apply orderBy_sorted|].
  apply orderBy_perm.
Qed.

(** X14: what [getOfflineQueue] returns is sorted by ascending sequence
    number and is, up to order, every queued entry of the document, of
    whatever client. *)
Theorem X_getOfflineQueue_all_clients (st : Store) (clientId : string)
  (documentId : Z) (rows : list OfflineEntry) :
  db.getOfflineQueue st clientId documentId = Ok rows ->
  StronglySorted (fun a b => oq_sequenceNumber a <= oq_sequenceNumber b) rows
  /\ rows ≡ₚ List.filter (fun r => bool_decide (oq_documentId r = documentId))
              (offline_rows st).
Proof. apply getOfflineQueue_sorted_perm. Qed.

(** X15: [clearOfflineQueue] deletes the queued entries of the document for
    every client and keeps the entries of the other documents, in their
    order. *)
Theorem X_clearOfflineQueue_whole_document (st st' : Store)
  (clientId : string) (documentId : Z) :
  db.clearOfflineQueue st clientId documentId = Ok st' ->
  offline_rows st' =
  List.filter (fun r => negb (bool_decide (oq_documentId r = documentId)))
    (offline_rows st).
Proof.
  unfold db.clearOfflineQueue, db.getDb, db.execute, offline_rows.
  destruct st as [h|].
  - destruct (online h); [|discriminate]. intros [= <-]. reflexivity.
  - intros [= <-]. reflexivity.
Qed.

End QueryFacts.

(** * The offline queue, end to end *)
Section QueueFacts.
Context `{Yjs}.
Import OfflineRecoveryManager.

Lemma apply_queued_foldl (queuedOps : list OfflineEntry) :
  forall ydoc c,
    fst (apply_queued queuedOps ydoc c) =
    foldl (fun acc e => snd (Y_applyUpdate acc (oq_updateData e)))
      ydoc queuedOps.
Proof.
  induction queuedOps as [|op rest IH]; intros ydoc c; [reflexivity|].
  simpl. destruct (Y_applyUpdate ydoc (oq_updateData op)) as [[[]|] y];
    apply IH.
Qed.

(** X16: an entry queued with [queueOfflineOperation] is among the entries
    [getOfflineQueue] returns for its client and document afterwards, and
    the queue of the document is longer by one. *)
Theorem X_queued_entry_is_fetched (st st' : Store) (clientId : string)
  (documentId : Z) (update : bytes) (sequenceNumber : Z) :
  queueOfflineOperation st clientId documentId update sequenceNumber = Ok st' ->
  exists before after,
    db.getOfflineQueue st clientId documentId = Ok before
    /\ db.getOfflineQueue st' clientId documentId = Ok after
    /\ {| oq_clientId := clientId; oq_documentId := documentId;
          oq_updateData := update; oq_sequenceNumber := sequenceNumber |}
       ∈ after
    /\ length after = S (length before).
Proof.
  unfold queueOfflineOperation, db.addOfflineOperation, db.getOfflineQueue,
    db.getDb, db.query.
  destruct st as [h|]; [|discriminate].
  intros Hins. apply insert_Ok in Hins as (Hon & _ & ->). rewrite Hon.
  cbn [online tables db.add_row]. eexists _, _.
  split; [reflexivity|]. split; [reflexivity|].
  rewrite js_and_is_right. cbn [db.set_offlineQueue offlineQueue].
  unfold drizzle.where_. rewrite List.filter_app. simpl.
  rewrite bool_decide_eq_true_2 by reflexivity.
  split.
  - rewrite orderBy_perm. apply elem_of_app. right. apply list_elem_of_here.
  - rewrite !orderBy_length, length_app. simpl. lia.
Qed.

(** X17: a recovery that returns has handed the queued updates of the
    document, those of every client, to [Y.applyUpdate] in ascending
    sequence number, each on the document as the call before left it,
    whether that call returned or threw. *)
Theorem X_recovery_applies_in_sequence (st : Store) (clientId : string)
  (documentId : Z) (ydoc : YDoc) (counts : Counts) (st' : Store)
  (ydoc' : YDoc) :
  recoverOfflineOperations st clientId documentId ydoc
    = (Ok counts, st', ydoc') ->
  exists rows,
    db.getOfflineQueue st clientId documentId = Ok rows
    /\ StronglySorted
         (fun a b => oq_sequenceNumber a <= oq_sequenceNumber b) rows
    /\ rows ≡ₚ List.filter
                 (fun r => bool_decide (oq_documentId r = documentId))
                 (offline_rows st)
    /\ ydoc' =
       foldl (fun acc e => snd (Y_applyUpdate acc (oq_updateData e)))
         ydoc rows.
Proof.
  unfold recoverOfflineOperations.
  destruct (db.getOfflineQueue st clientId documentId) as [rows|] eqn:Hq;
    [|discriminate].
  intros Hrun. exists rows. split; [reflexivity|].
  destruct (getOfflineQueue_sorted_perm st clientId documentId rows Hq)
    as [Hsorted Hperm].
  split; [exact Hsorted|]. split; [exact Hperm|].
  case_bool_decide as Hlen.
  - injection Hrun as <- <- <-.
    apply length_zero_iff_nil in Hlen. now rewrite Hlen.
  - pose proof (apply_queued_foldl rows ydoc
                  {| recovered := 0; conflicts := 0 |}) as Hfold.
    destruct (apply_queued _ _ _) as [y c].
    destruct (db.clearOfflineQueue _ _ _); [|discriminate].
    injection Hrun as <- <- <-. exact Hfold.
Qed.

(** X18: a recovery that returns leaves no queued entry of the document for
    any client: the entries other clients queued for it are deleted too. *)
Theorem X_recovery_clears_every_client (st : Store) (clientId : string)
  (documentId : Z) (ydoc : YDoc) (counts : Counts) (st' : Store)
  (ydoc' : YDoc) :
  recoverOfflineOperations st clientId documentId ydoc
    = (Ok counts, st', ydoc') ->
  forall other, offline_queue_for st' other documentId = [].
Proof.
  unfold recoverOfflineOperations.
  unfold db.getOfflineQueue, db.clearOfflineQueue, db.getDb.
  destruct st as [h|].
  - unfold db.query, db.execute. destruct (online h) eqn:Hon; [|discriminate].
    rewrite js_and_is_right.
    case_bool_decide as Hlen.
    + intros [= <- <- <-] other. simpl.
      rewrite orderBy_length in Hlen.
      apply length_zero_iff_nil in Hlen. unfold drizzle.where_ in Hlen.
      eapply filter_stronger_nil; [|exact Hlen].
      intros r Hr. simpl. apply andb_prop in Hr. tauto.
    + destruct (apply_queued _ _ _) as [y c].
      intros [= <- <- <-] other. simpl. apply filter_excluded.
      intros r Hr. simpl. apply andb_prop in Hr. tauto.
  - simpl. intros [= <- <- <-] other. reflexivity.
Qed.

End QueueFacts.

Section SessionRowFacts.

(** X19: deleting the session of a client id right after creating it
    removes every row of that client id; when no earlier row carried the
    client id, the table is back to what it was. *)
Theorem X_session_row_round_trip (st st1 : Store) (documentId userId : Z)
  (clientId userColor : string) :
  db.createSession st documentId userId clientId userColor = Ok st1 ->
  exists st2,
    db.deleteSession st1 clientId = Ok st2
    /\ session_rows st2 =
       List.filter (fun r => negb (bool_decide (sess_clientId r = clientId)))
         (session_rows st)
    /\ (Forall (fun r => sess_clientId r <> clientId) (session_rows st) ->
        session_rows st2 = session_rows st).
Proof.
  unfold db.createSession, db.deleteSession, db.getDb, db.execute.
  destruct st as [h|]; [|discriminate].
  intros Hins. apply insert_Ok in Hins as (_ & _ & ->).
  cbn [online tables db.add_row db.set_sessions sessions].
  eexists. split; [reflexivity|].
  cbn [session_rows tables db.set_sessions sessions].
  assert (Hrows :
    List.filter
      (fun r => negb (drizzle.holds (drizzle.eq sess_clientId clientId) r))
      (sessions (tables h) ++
       [{| sess_documentId := documentId; sess_userId := userId;
           sess_clientId := clientId; sess_userColor := userColor |}])
    = List.filter (fun r => negb (bool_decide (sess_clientId r = clientId)))
        (sessions (tables h))).
  { rewrite List.filter_app. simpl.
    rewrite bool_decide_eq_true_2 by reflexivity. simpl.
    apply app_nil_r. }
  split; [exact Hrows|].
  intros Hfresh. rewrite Hrows. clear Hrows.
  induction (sessions (tables h)) as [|r rows IH]; [reflexivity|].
  apply Forall_cons in Hfresh as [Hr Hrows]. simpl.
  rewrite bool_decide_eq_false_2 by exact Hr. simpl. now rewrite IH.
Qed.

End SessionRowFacts.

(** Asked for document 1 above version 0, [logged_store] gives the row of
    document 2 with version 1 and then the row of document 1 with
    version 2. *)
Lemma X_getOperationsSince_all_documents_witness :
  exists rows,
    db.getOperationsSince logged_store 1 0 = Ok rows
    /\ map (fun r => (op_documentId r, op_version r)) rows = [(2, 1); (1, 2)]
    /\ StronglySorted (fun a b => op_version a <= op_version b) rows
    /\ rows ≡ₚ List.filter (fun r => bool_decide (0 < op_version r))
                (operation_rows logged_store).
Proof.
  eexists. split; [vm_compute; reflexivity|]. split; [reflexivity|].
  apply (X_getOperationsSince_all_documents logged_store 1 0).
  vm_compute. reflexivity.
Defined.

(** Asked for client ["c1"] and document 1, [mixed_queue_store] gives the
    entry of ["c2"] first, then the one of ["c1"]. *)
Lemma X_getOfflineQueue_all_clients_witness :
  exists rows,
    db.getOfflineQueue mixed_queue_store "c1" 1 = Ok rows
    /\ rows = [ queue_row "c2" 1 1 [x01]; queue_row "c1" 1 2 [x02] ]
    /\ StronglySorted
         (fun a b => oq_sequenceNumber a <= oq_sequenceNumber b) rows
    /\ rows ≡ₚ List.filter (fun r => bool_decide (oq_documentId r = 1))
                (offline_rows mixed_queue_store).
Proof.
  eexists. split; [vm_compute; reflexivity|]. split; [reflexivity|].
  apply (X_getOfflineQueue_all_clients mixed_queue_store "c1" 1).
  vm_compute. reflexivity.
Defined.

(** Clearing the queue of ["c1"] for document 1 in [mixed_queue_store]
    leaves the entry of document 2 only. *)
Lemma X_clearOfflineQueue_whole_document_witness :
  exists st',
    db.clearOfflineQueue mixed_queue_store "c1" 1 = Ok st'
    /\ offline_rows st' = [ queue_row "c1" 2 1 [x09] ]
    /\ offline_rows st' =
       List.filter (fun r => negb (bool_decide (oq_documentId r = 1)))
         (offline_rows mixed_queue_store).
Proof.
  eexists. split; [vm_compute; reflexivity|]. split; [reflexivity|].
  apply (X_clearOfflineQueue_whole_document mixed_queue_store _ "c1" 1).
  vm_compute. reflexivity.
Defined.

(** Queuing a third entry of ["c1"] for document 1. *)
Lemma X_queued_entry_is_fetched_witness :
  exists st',
    OfflineRecoveryManager.queueOfflineOperation mixed_queue_store "c1" 1
      [x03] 3 = Ok st'
    /\ exists before after,
         db.getOfflineQueue mixed_queue_store "c1" 1 = Ok before
         /\ db.getOfflineQueue st' "c1" 1 = Ok after
         /\ queue_row "c1" 1 3 [x03] ∈ after
         /\ length after = S (length before).
Proof.
  eexists. split; [vm_compute; reflexivity|].
  apply (X_queued_entry_is_fetched mixed_queue_store _ "c1" 1 [x03] 3).
  vm_compute. reflexivity.
Defined.

(** The recovery of ["c1"] for document 1 in [mixed_queue_store] applies
    the update of ["c2"], then its own. *)
Lemma X_recovery_applies_in_sequence_witness :
  exists rows,
    db.getOfflineQueue mixed_queue_store "c1" 1 = Ok rows
    /\ StronglySorted
         (fun a b => oq_sequenceNumber a <= oq_sequenceNumber b) rows
    /\ rows ≡ₚ List.filter (fun r => bool_decide (oq_documentId r = 1))
                (offline_rows mixed_queue_store)
    /\ snd (OfflineRecoveryManager.recoverOfflineOperations
              mixed_queue_store "c1" 1 []) =
       foldl (fun acc e => snd (Y_applyUpdate acc (oq_updateData e)))
         [] rows.
Proof.
  exact (X_recovery_applies_in_sequence mixed_queue_store "c1" 1 []
           {| OfflineRecoveryManager.recovered := 2;
              OfflineRecoveryManager.conflicts := 0 |} _ _ eq_refl).
Defined.

(** After that recovery nothing is queued for ["c2"] and document 1. *)
Lemma X_recovery_clears_every_client_witness :
  offline_queue_for mixed_queue_store "c2" 1 = [ queue_row "c2" 1 1 [x01] ]
  /\ offline_queue_for
       (snd (fst (OfflineRecoveryManager.recoverOfflineOperations
                    mixed_queue_store "c1" 1 [])))
       "c2" 1 = [].
Proof.
  split; [vm_compute; reflexivity|].
  exact (X_recovery_clears_every_client mixed_queue_store "c1" 1 []
           {| OfflineRecoveryManager.recovered := 2;
              OfflineRecoveryManager.conflicts := 0 |} _ _ eq_refl "c2").
Defined.

(** Creating and deleting the session of client ["a1"] on [the_store]. *)
Lemma X_session_row_round_trip_witness :
  exists st1,
    db.createSession the_store 1 1 "a1" "#FF6B6B" = Ok st1
    /\ exists st2,
         db.deleteSession st1 "a1" = Ok st2
         /\ session_rows st2 =
            List.filter (fun r => negb (bool_decide (sess_clientId r = "a1")))
              (session_rows the_store)
         /\ (Forall (fun r => sess_clientId r <> "a1")
               (session_rows the_store) ->
             session_rows st2 = session_rows the_store).
Proof.
  eexists. split; [vm_compute; reflexivity|].
  apply (X_session_row_round_trip the_store _ 1 1 "a1" "#FF6B6B").
  vm_compute. reflexivity.
Defined.

(** * [upsertUser] *)
Section UpsertFacts.
Import upsert.

(** X20: the statement [upsertUser] issues is for a non-empty [openId],
    always carries a date for [lastSignedIn] in its values and never an
    empty update set; values and update set agree on the role, which for
    a user who gives none is ["admin"] for the owner's [openId] and absent
    for everyone else. *)
Theorem X_upsert_statement_is_complete (ownerOpenId : string) (now : Z)
  (st : Store) (user : InsertUser) (stmt : Statement) :
  upsertUser ownerOpenId now st user = Ok (Some stmt) ->
  openId user <> EmptyString
  /\ openId (values stmt) = openId user
  /\ (exists date, lastSignedIn (values stmt) = value date)
  /\ (0 < key_count (set stmt))%nat
  /\ role (values stmt) = set_role (set stmt)
  /\ (role user = undefined ->
      role (values stmt) =
      if bool_decide (openId user = ownerOpenId) then value "admin"
      else undefined).
Proof.
  unfold upsertUser. case_bool_decide as Hid; [discriminate|].
  destruct (db.getDb st) as [h|]; [|discriminate].
  destruct (online h); [|discriminate]. intros [= <-].
  split; [exact Hid|]. split; [reflexivity|]. split; [|split; [|split]].
  - unfold build. cbn [values lastSignedIn].
    destruct (lastSignedIn user); simpl; eauto.
  - unfold build. cbn [set].
    destruct (Nat.eqb _ 0) eqn:Hkeys.
    + unfold key_count. cbn [set_lastSignedIn]. lia.
    + apply Nat.eqb_neq in Hkeys. lia.
  - unfold build. cbn [values set role].
    destruct (Nat.eqb _ 0); reflexivity.
  - intros Hrole. unfold build. cbn [values role]. now rewrite Hrole.
Qed.

End UpsertFacts.

(** The sign-in of a user who gives only the [openId]. *)
Lemma X_upsert_statement_is_complete_witness :
  exists stmt,
    upsert.upsertUser "owner" 1000000 the_store dave_sign_in = Ok (Some stmt)
    /\ upsert.openId dave_sign_in <> EmptyString
    /\ upsert.openId (upsert.values stmt) = upsert.openId dave_sign_in
    /\ (exists date, upsert.lastSignedIn (upsert.values stmt)
                     = upsert.value date)
    /\ (0 < upsert.key_count (upsert.set stmt))%nat
    /\ upsert.role (upsert.values stmt) = upsert.set_role (upsert.set stmt)
    /\ (upsert.role dave_sign_in = upsert.undefined ->
        upsert.role (upsert.values stmt) =
        if bool_decide (upsert.openId dave_sign_in = "owner")
        then upsert.value "admin" else upsert.undefined).
Proof.
  eexists. split; [vm_compute; reflexivity|].
  apply (X_upsert_statement_is_complete "owner" 1000000 the_store
           dave_sign_in).
  vm_compute. reflexivity.
Defined.

(** * The sharing router *)
Section SharingFacts.
Import sharing.
Variable Number_toString : Z -> string.

(** X21: [shareDocument] and [revokeAccess] resolve exactly when the caller
    is signed in and owns an existing document; they reject with
    [UNAUTHORIZED] before looking at the document, with [NOT_FOUND] before
    looking at the owner. *)
Theorem X_share_resolves_for_owner_only (st : Store) (ctx_user : option User)
  (input : ShareInput) (rinput : RevokeInput) :
  ((exists reply,
      shareDocument Number_toString st ctx_user input = resolved reply)
   <-> exists user doc_,
         ctx_user = Some user
         /\ db.getDocument st (si_documentId input) = Ok (Some doc_)
         /\ doc_ownerId doc_ = user_id user)
  /\ ((exists reply,
         revokeAccess Number_toString st ctx_user rinput = resolved reply)
      <-> exists user doc_,
            ctx_user = Some user
            /\ db.getDocument st (ri_documentId rinput) = Ok (Some doc_)
            /\ doc_ownerId doc_ = user_id user)
  /\ (ctx_user = None ->
      shareDocument Number_toString st ctx_user input = rejected UNAUTHORIZED
      /\ revokeAccess Number_toString st ctx_user rinput
         = rejected UNAUTHORIZED).
Proof.
  unfold shareDocument, revokeAccess.
  split; [|split].
  - destruct ctx_user as [user|].
    + destruct (db.getDocument st (si_documentId input)) as [[doc_|]|].
      * case_bool_decide as Hown; split.
        -- intros [reply Hr]. discriminate Hr.
        -- intros (u & d & [= <-] & [= <-] & Heq). contradiction.
        -- intros _. exists user, doc_. repeat split.
           destruct (decide (doc_ownerId doc_ = user_id user)); tauto.
        -- intros _. eauto.
      * split; [intros [? Hr]; discriminate Hr
               |intros (u & d & _ & Hd & _); discriminate Hd].
      * split; [intros [? Hr]; discriminate Hr
               |intros (u & d & _ & Hd & _); discriminate Hd].
    + split; [intros [? Hr]; discriminate Hr
             |intros (u & d & Hu & _); discriminate Hu].
  - destruct ctx_user as [user|].
    + destruct (db.getDocument st (ri_documentId rinput)) as [[doc_|]|].
      * case_bool_decide as Hown; split.
        -- intros [reply Hr]. discriminate Hr.
        -- intros (u & d & [= <-] & [= <-] & Heq). contradiction.
        -- intros _. exists user, doc_. repeat split.
           destruct (decide (doc_ownerId doc_ = user_id user)); tauto.
        -- intros _. eauto.
      * split; [intros [? Hr]; discriminate Hr
               |intros (u & d & _ & Hd & _); discriminate Hd].
      * split; [intros [? Hr]; discriminate Hr
               |intros (u & d & _ & Hd & _); discriminate Hd].
    + split; [intros [? Hr]; discriminate Hr
             |intros (u & d & Hu & _); discriminate Hu].
  - intros ->. split; reflexivity.
Qed.

End SharingFacts.

Section SharedListFacts.
Import sharing.

(** X22: [getSharedDocuments] lists grants of document 0 only, and the same
    list for every signed-in caller: a grant on another document is never
    listed, whoever holds it. *)
Theorem X_shared_list_is_document_zero (st : Store) (caller other : User)
  (shares : list (Z * string)) :
  getSharedDocuments st (Some caller) = resolved shares ->
  Forall (fun share => fst share = 0) shares
  /\ getSharedDocuments st (Some other) = resolved shares.
Proof.
  unfold getSharedDocuments, db_rest.getDocumentPermissions, db.getDb,
    db.query.
  destruct st as [h|].
  - destruct (online h); [|discriminate]. intros [= <-].
    split; [|reflexivity].
    apply Forall_forall. intros share Hin.
    apply list_elem_of_fmap in Hin as (p & -> & Hp).
    unfold drizzle.where_ in Hp.
    apply list_elem_of_In, filter_In in Hp as [_ Hp].
    simpl in Hp. now apply bool_decide_eq_true in Hp.
  - intros [= <-]. split; [constructor|reflexivity].
Qed.

End SharedListFacts.

(** In [shared_store] bob and carol each hold a grant on document 0 and
    bob one on document 2: bob's list holds the two grants on document 0,
    carol's included and his own grant on document 2 left out, and alice,
    who holds none, gets the same list. *)
Lemma X_shared_list_is_document_zero_witness :
  sharing.getSharedDocuments shared_store
    (Some {| user_id := 2; user_openId := "bob"; user_name := "Bob" |})
  = sharing.resolved [(0, "viewer"); (0, "editor")]
  /\ Forall (fun share => fst share = 0) [(0, "viewer"); (0, "editor")]
  /\ sharing.getSharedDocuments shared_store
       (Some {| user_id := 1; user_openId := "alice"; user_name := "Alice" |})
     = sharing.resolved [(0, "viewer"); (0, "editor")].
Proof.
  split; [vm_compute; reflexivity|].
  apply (X_shared_list_is_document_zero shared_store
           {| user_id := 2; user_openId := "bob"; user_name := "Bob" |}).
  vm_compute. reflexivity.
Defined.

(** * The client: local edits *)
Section EditFacts.
Import useCollaborativeEditor.
Context `{YText}.


(** X24: an edit that keeps the length, such as replacing a character,
    leaves the shared text as it was, and an [update] is emitted all the
    same. *)
Theorem X_updateContent_replacement_is_lost (ytext : Text)
  (newContent : code_units) :
  length newContent = length (Y_toString ytext) ->
  newContent <> Y_toString ytext ->
  updateContent ytext newContent = (ytext, true).
Proof.
  intros Hlen Hne. unfold updateContent.
  destruct (decide (Y_toString ytext = newContent)) as [Heq|_];
    [now subst|].
  rewrite Hlen, Nat.ltb_irrefl. reflexivity.
Qed.

End EditFacts.




(** Replacing the last letter of "cat" by "r". *)
Lemma X_updateContent_replacement_is_lost_witness :
  useCollaborativeEditor.updateContent [99; 97; 116] [99; 97; 114]
  = ([99; 97; 116], true).
Proof.
  apply (@X_updateContent_replacement_is_lost one_item);
    [reflexivity|discriminate].
Defined.

(** * The client: who is online *)
Section MemberFacts.
Context {K V : Type} `{EqDecision K}.



End MemberFacts.

Section OnlineFacts.
Context `{Yjs} `{Json}.
Import useCollaborativeEditor.
Variable Number_toString : Z -> string.





End OnlineFacts.


(** * The cursor handler *)
Section CursorFacts.
Context `{Yjs}.
Import cursor.

(** X26: whatever a [cursor_update] makes the server emit is one message
    to the other sockets of the channel of the sender's session, never to
    the sender, carrying the user and the colour of the session and the
    client id of the message; a socket without a session, or whose room is
    gone, gets no answer at all, not even an error. *)
Theorem X_cursor_update_reaches_peers_only (s : Server) (sid : nat)
  (message : CursorUpdateMessage) (target : Target)
  (sent : CursorBroadcast) :
  (target, sent) ∈ snd (on_cursor_update sid message s) ->
  exists cs,
    currentSession s !! sid = Some cs
    /\ is_Some (rooms s !! documentId cs)
    /\ snd (on_cursor_update sid message s) = [(target, sent)]
    /\ target = socket_to sid (documentId cs)
    /\ (sid ∉ receivers s target)
    /\ cb_userId sent = userId cs
    /\ cb_color sent = color cs
    /\ cb_clientId sent = cu_clientId message
    /\ cb_position sent = cu_position message.
Proof.
  unfold on_cursor_update.
  destruct (currentSession s !! sid) as [cs|]; [|intros Hin; inversion Hin].
  destruct (rooms s !! documentId cs) as [room|] eqn:Hroom;
    [|intros Hin; inversion Hin].
  destruct (updateSessionCursor _ _ _ _ _); [|intros Hin; inversion Hin].
  cbn [snd]. intros Hin. apply list_elem_of_singleton in Hin.
  injection Hin as -> ->. exists cs.
  split; [reflexivity|]. split; [eauto|]. split; [reflexivity|].
  split; [reflexivity|]. split; [|repeat split].
  simpl. intros Hin. apply elem_of_difference in Hin as [_ Hn].
  apply Hn, elem_of_singleton. reflexivity.
Qed.

End CursorFacts.

(** Alice moves her cursor in [joined]. *)
Lemma X_cursor_update_reaches_peers_only_witness :
  exists cs,
    currentSession joined !! 7%nat = Some cs
    /\ is_Some (rooms joined !! documentId cs)
    /\ snd (cursor.on_cursor_update 7
              {| cursor.cu_position := 5; cursor.cu_selection := None;
                 cursor.cu_clientId := "a1" |} joined)
       = [ (socket_to 7 1,
            {| cursor.cb_userId := 1; cursor.cb_clientId := "a1";
               cursor.cb_position := 5; cursor.cb_selection := None;
               cursor.cb_color := "#FF6B6B"; cursor.cb_name := "User" |}) ]
    /\ socket_to 7 1 = socket_to 7 (documentId cs)
    /\ (7%nat ∉ receivers joined (socket_to 7 1))
    /\ 1 = userId cs
    /\ "#FF6B6B" = color cs
    /\ "a1" = "a1"
    /\ 5 = 5.
Proof.
  apply (X_cursor_update_reaches_peers_only joined 7
           {| cursor.cu_position := 5; cursor.cu_selection := None;
              cursor.cu_clientId := "a1" |}
           (socket_to 7 1)
           {| cursor.cb_userId := 1; cursor.cb_clientId := "a1";
              cursor.cb_position := 5; cursor.cb_selection := None;
              cursor.cb_color := "#FF6B6B"; cursor.cb_name := "User" |}).
  vm_compute. apply list_elem_of_here.
Defined.

(** * Sessions in the store *)
Section StoredSessions.
Context `{Yjs} `{Json}.


(** X28: on a live store, the disconnect of a socket with a session deletes
    every session row of the session's client id, also those of other
    connections that joined under the same client id, and keeps the rows
    of the other client ids. *)
Theorem X_disconnect_deletes_session_rows (s : Server) (sid : nat) (now : Z)
  (cs : UserSession) (h : Handle) :
  currentSession s !! sid = Some cs ->
  store s = Some h -> online h = true ->
  session_rows (store (fst (step (ev_disconnect sid now) s))) =
  List.filter (fun r => negb (bool_decide (sess_clientId r = clientId cs)))
    (session_rows (store s)).
Proof.
  intros Hcs Hst Hon. unfold step, handle. run_handler.
  rewrite Hcs. run_handler.
  destruct (rooms s !! documentId cs) as [room|]; run_handler.
  - destruct (Nat.eqb _ 0); run_handler; rewrite ?Hst;
      unfold db.getDb; run_handler; rewrite ?Hst;
      unfold db.deleteSession, db.getDb, db.execute;
      rewrite Hon; reflexivity.
  - rewrite Hst. unfold db.deleteSession, db.getDb, db.execute.
    rewrite Hon. reflexivity.
Qed.

End StoredSessions.


(** Alice disconnects in [joined]: her session row is deleted. *)
Lemma X_disconnect_deletes_session_rows_witness :
  session_rows (store (fst (step (ev_disconnect 7 1000002) joined))) =
  List.filter
    (fun r => negb (bool_decide (sess_clientId r = clientId alice_session)))
    (session_rows (store joined)).
Proof.
  apply (X_disconnect_deletes_session_rows joined 7 1000002 alice_session
           joined_handle); vm_compute; reflexivity.
Defined.
